(** * Custom Bullets: the line rewriter of [src/main.ts]

    A shallow embedding of [processLine] (the editor extension's per-line
    transform), of the two regular expressions it relies on, and of the
    [onChange] handlers of the settings tab; then of the rest of the
    plugin: loading and saving the settings, the toggle command with the
    status bar item, and the refresh of the editor.

    JavaScript strings are sequences of UTF-16 code units; the regular
    expressions of the source carry no [u] flag, so they work on code
    units.  A string is therefore a list of code units, a number that the
    source computes ([length], [level]) is an integer in [Z]. *)

From Stdlib Require Import ZArith NArith List String Ascii Lia.
From stdpp Require Import base list.

Local Open Scope Z_scope.

(** ** Strings *)

Definition char := N.
Definition jsstring := list char.

(** An ASCII literal as a JavaScript string. *)
Definition js (s : string) : jsstring :=
  map N_of_ascii (list_ascii_of_string s).

(** [a.length], of a string or of an array. *)
Definition jslength {A : Type} (a : list A) : Z := Z.of_nat (length a).

Module Chr.
Definition TAB : char := 9%N.
Definition LF : char := 10%N.
Definition CR : char := 13%N.
Definition SPACE : char := 32%N.
Definition STAR : char := 42%N.
Definition PLUS : char := 43%N.
Definition MINUS : char := 45%N.
Definition NBSP : char := 160%N.
Definition LS : char := 8232%N.
Definition PS : char := 8233%N.
End Chr.

(** ** Character classes of ECMAScript regular expressions *)

(** LineTerminator: LF, CR, U+2028, U+2029. *)
Definition isLineTerminator (c : char) : bool :=
  (c =? Chr.LF)%N || (c =? Chr.CR)%N || (c =? Chr.LS)%N || (c =? Chr.PS)%N.

(** [\s]: WhiteSpace or LineTerminator.  WhiteSpace is TAB, VT, FF, U+FEFF
    and the Unicode category Zs (U+0020, U+00A0, U+1680, U+2000..U+200A,
    U+202F, U+205F, U+3000). *)
Definition isWhiteSpace (c : char) : bool :=
  (c =? Chr.TAB)%N || (c =? 11)%N || (c =? 12)%N || (c =? Chr.SPACE)%N
  || (c =? Chr.NBSP)%N || (c =? 5760)%N
  || ((8192 <=? c)%N && (c <=? 8202)%N)
  || (c =? 8239)%N || (c =? 8287)%N || (c =? 12288)%N || (c =? 65279)%N
  || isLineTerminator c.

(** [.] without the [s] flag: anything but a LineTerminator. *)
Definition isDot (c : char) : bool := negb (isLineTerminator c).

(** ** A backtracking matcher for the constructs the source uses

    The matcher follows the continuation-passing semantics of ECMA-262: a
    pattern is run against a state and a continuation, and a greedy
    quantifier tries the longest repetition first and gives characters back
    when the continuation fails.  Quantifiers are over one-character atoms,
    which is all the source needs. *)

Inductive regex : Type :=
| Bol                                    (* ^ *)
| Lit (c : char)                         (* a literal character *)
| Cls (p : char -> bool)                 (* a character class: \s, . *)
| Star (p : char -> bool)                (* a greedy starred atom *)
| Plus (p : char -> bool)                (* a greedy plussed atom *)
| Seq (r1 r2 : regex)                    (* r1 r2 *)
| Alt (r1 r2 : regex)                    (* r1|r2 *)
| Grp (n : nat) (r : regex).             (* the n-th capturing group *)

(** The state of a match: the index reached, the input from there on, and
    the captures so far ([None] is JavaScript's [undefined]). *)
Record MState : Type := mkState {
  pos : nat;
  rest : jsstring;
  caps : list (option jsstring)
}.

Definition Cont : Type := MState -> option MState.

Definition orElse (a b : option MState) : option MState :=
  match a with
  | Some y => Some y
  | None => b
  end.

Fixpoint starCls (p : char -> bool) (input : jsstring) (i : nat)
    (cs : list (option jsstring)) (k : Cont) : option MState :=
  match input with
  | c :: input' =>
      if p c
      then orElse (starCls p input' (S i) cs k) (k (mkState i input cs))
      else k (mkState i input cs)
  | [] => k (mkState i [] cs)
  end.

Definition oneChar (p : char -> bool) (x : MState) (k : Cont) : option MState :=
  match rest x with
  | c :: input' => if p c then k (mkState (S (pos x)) input' (caps x)) else None
  | [] => None
  end.

Fixpoint run (r : regex) (x : MState) (k : Cont) : option MState :=
  match r with
  | Bol => if Nat.eqb (pos x) 0 then k x else None
  | Lit c => oneChar (N.eqb c) x k
  | Cls p => oneChar p x k
  | Star p => starCls p (rest x) (pos x) (caps x) k
  | Plus p => oneChar p x (fun y => starCls p (rest y) (pos y) (caps y) k)
  | Seq r1 r2 => run r1 x (fun y => run r2 y k)
  | Alt r1 r2 => orElse (run r1 x k) (run r2 x k)
  | Grp n r =>
      run r x (fun y =>
        k (mkState (pos y) (rest y)
             (<[n := Some (take (pos y - pos x) (rest x))]> (caps y))))
  end.

(** One attempt at index [i]: on success, entry 0 of the result is the
    whole match and entry [n] the n-th group. *)
Definition attempt (r : regex) (ngroups : nat) (i : nat) (input : jsstring)
    : option (list (option jsstring)) :=
  match run r (mkState i input (replicate (S ngroups) None)) Some with
  | Some y => Some (<[0%nat := Some (take (pos y - i) input)]> (caps y))
  | None => None
  end.

(** The search loop of a non-global [exec]: the first index at which an
    attempt succeeds, [None] (JavaScript's [null]) when there is none. *)
Fixpoint search (r : regex) (ngroups : nat) (i : nat) (input : jsstring)
    : option (list (option jsstring)) :=
  match attempt r ngroups i input with
  | Some m => Some m
  | None =>
      match input with
      | [] => None
      | _ :: input' => search r ngroups (S i) input'
      end
  end.

(** [s.match(r)] for a regular expression without the [g] flag. *)
Definition jsmatch (r : regex) (ngroups : nat) (s : jsstring)
    : option (list (option jsstring)) :=
  search r ngroups 0 s.

(** [s.match(/c/g)] for a one-character literal: the array of all the
    occurrences, [null] when there is none. *)
Definition jsmatch_all_lit (c : char) (s : jsstring) : option (list jsstring) :=
  match List.filter (N.eqb c) s with
  | [] => None
  | o :: os => Some (map (fun d => [d]) (o :: os))
  end.

(** [s.replace(/c/g, '')] for a one-character literal. *)
Definition jsreplace_all_lit_empty (c : char) (s : jsstring) : jsstring :=
  List.filter (fun d => negb (N.eqb c d)) s.

(** ** Coercions of JavaScript values *)

(** ToBoolean of a string that may be [undefined]. *)
Definition truthy (v : option jsstring) : bool :=
  match v with
  | Some (_ :: _) => true
  | _ => false
  end.

(** ToString, as applied by [+] when the other operand is a string. *)
Definition toString (v : option jsstring) : jsstring :=
  match v with
  | Some s => s
  | None => js "undefined"
  end.

(** [a || b] on strings. *)
Definition or_string (a b : jsstring) : jsstring :=
  if truthy (Some a) then a else b.

(** [a || []] where [a] is an array or [null]. *)
Definition or_empty {A : Type} (a : option (list A)) : list A :=
  match a with
  | Some l => l
  | None => []
  end.

(** ** Settings (lines 3-19) *)

Record CustomBulletsSettings : Type := mkSettings {
  level1 : jsstring;
  level2 : jsstring;
  level3 : jsstring;
  level4 : jsstring;
  level5 : jsstring;
  enabled : bool
}.

Definition DEFAULT_SETTINGS : CustomBulletsSettings :=
  {| level1 := [8226%N];   (* U+2022 *)
     level2 := [9702%N];   (* U+25E6 *)
     level3 := [9642%N];   (* U+25AA *)
     level4 := [9643%N];   (* U+25AB *)
     level5 := [8259%N];   (* U+2043 *)
     enabled := true |}.

(** ** processLine (lines 59-94) *)

(** The regular expression of line 63, written with blanks between its
    tokens:  ^ ( \s* ) ( - | \* | \+ ) ( \s+ ) ( .* )  *)
Definition listRegex : regex :=
  Seq Bol
    (Seq (Grp 1 (Star isWhiteSpace))
      (Seq (Grp 2 (Alt (Lit Chr.MINUS) (Alt (Lit Chr.STAR) (Lit Chr.PLUS))))
        (Seq (Grp 3 (Plus isWhiteSpace))
             (Grp 4 (Star isDot))))).

Definition listMatch (lineText : jsstring) : option (list (option jsstring)) :=
  jsmatch listRegex 4 lineText.

(** The n-th element of a match array, [undefined] when it is absent. *)
Definition nth_group (m : list (option jsstring)) (n : nat) : option jsstring :=
  match m !! n with
  | Some v => v
  | None => None
  end.

(** Lines 69-79: the nesting level of an indentation prefix.  The guard
    [if (indent)] lets through a defined, non-empty string only; in every
    other case [level] keeps its initial value. *)
Definition indentLevel (indent : option jsstring) : Z :=
  match indent with
  | Some ((_ :: _) as indent) =>
      let tabCount := jslength (or_empty (jsmatch_all_lit Chr.TAB indent)) in
      let spaceCount := jslength (jsreplace_all_lit_empty Chr.TAB indent) in
      let spaceLevel := spaceCount / 2 in
      1 + tabCount + spaceLevel
  | _ => 1
  end.

(** The arm of the [switch] of lines 83-89 that a level selects. *)
Inductive Arm : Type := Case1 | Case2 | Case3 | Case4 | Default.

Definition switchArm (level : Z) : Arm :=
  match level with
  | 1 => Case1
  | 2 => Case2
  | 3 => Case3
  | 4 => Case4
  | _ => Default
  end.

Definition armBullet (settings : CustomBulletsSettings) (a : Arm) : jsstring :=
  match a with
  | Case1 => level1 settings
  | Case2 => level2 settings
  | Case3 => level3 settings
  | Case4 => level4 settings
  | Default => level5 settings
  end.

Definition customBullet (settings : CustomBulletsSettings) (level : Z) : jsstring :=
  armBullet settings (switchArm level).

(** What [processLine] returns: its [line] argument as it came, or the
    string [newLine]. *)
Inductive Returned (A : Type) : Type :=
| ReturnLine (line : A)
| ReturnNewLine (newLine : jsstring).

Arguments ReturnLine {A} line.
Arguments ReturnNewLine {A} newLine.

Definition processLine {A : Type} (settings : CustomBulletsSettings)
    (line : A) (lineText : jsstring) : Returned A :=
  if negb (enabled settings) then ReturnLine line
  else
    match listMatch lineText with
    | None => ReturnLine line
    | Some m =>
        let indent := nth_group m 1 in
        let space := nth_group m 3 in
        let content := nth_group m 4 in
        let level := indentLevel indent in
        ReturnNewLine
          (toString indent ++ customBullet settings level
             ++ toString space ++ toString content)
    end.

(** The rewriter as a function on strings: [processLine] called with the
    text itself as [line]. *)
Definition rewrite (settings : CustomBulletsSettings) (lineText : jsstring)
    : jsstring :=
  match processLine settings lineText lineText with
  | ReturnLine line => line
  | ReturnNewLine newLine => newLine
  end.

(** ** The plugin and its settings tab (lines 118-120 and 147-200)

    The plugin holds the settings in memory; [saveData] writes the record
    it is given to the host's store, which [data] stands for.  The refresh
    of the editor that ends every handler ([updateActiveMDView]) touches
    neither and is left out. *)

Record Plugin : Type := mkPlugin {
  settings : CustomBulletsSettings;
  data : option CustomBulletsSettings
}.

Definition saveSettings (p : Plugin) : Plugin :=
  {| settings := settings p; data := Some (settings p) |}.

Definition assign (p : Plugin) (s : CustomBulletsSettings) : Plugin :=
  {| settings := s; data := data p |}.

(** Lines 152-156. *)
Definition onChange_level1 (value : jsstring) (p : Plugin) : Plugin :=
  let t := settings p in
  saveSettings (assign p
    (mkSettings (or_string value [8226%N]) (level2 t) (level3 t) (level4 t)
       (level5 t) (enabled t))).

(** Lines 163-167. *)
Definition onChange_level2 (value : jsstring) (p : Plugin) : Plugin :=
  let t := settings p in
  saveSettings (assign p
    (mkSettings (level1 t) (or_string value [9702%N]) (level3 t) (level4 t)
       (level5 t) (enabled t))).

(** Lines 174-178. *)
Definition onChange_level3 (value : jsstring) (p : Plugin) : Plugin :=
  let t := settings p in
  saveSettings (assign p
    (mkSettings (level1 t) (level2 t) (or_string value [9642%N]) (level4 t)
       (level5 t) (enabled t))).

(** Lines 185-189. *)
Definition onChange_level4 (value : jsstring) (p : Plugin) : Plugin :=
  let t := settings p in
  saveSettings (assign p
    (mkSettings (level1 t) (level2 t) (level3 t) (or_string value [9643%N])
       (level5 t) (enabled t))).

(** Lines 196-200. *)
Definition onChange_level5 (value : jsstring) (p : Plugin) : Plugin :=
  let t := settings p in
  saveSettings (assign p
    (mkSettings (level1 t) (level2 t) (level3 t) (level4 t)
       (or_string value [8259%N]) (enabled t))).

(** The five text fields of the settings tab. *)
Inductive LevelField : Type := Level1 | Level2 | Level3 | Level4 | Level5.

Definition field (f : LevelField) (s : CustomBulletsSettings) : jsstring :=
  match f with
  | Level1 => level1 s
  | Level2 => level2 s
  | Level3 => level3 s
  | Level4 => level4 s
  | Level5 => level5 s
  end.

Definition LevelField_eqb (f g : LevelField) : bool :=
  match f, g with
  | Level1, Level1 | Level2, Level2 | Level3, Level3
  | Level4, Level4 | Level5, Level5 => true
  | _, _ => false
  end.

Definition onChange (f : LevelField) : jsstring -> Plugin -> Plugin :=
  match f with
  | Level1 => onChange_level1
  | Level2 => onChange_level2
  | Level3 => onChange_level3
  | Level4 => onChange_level4
  | Level5 => onChange_level5
  end.

(** ** Notions used to state the properties *)

(** The longest prefix of [s] whose characters satisfy [p], and what
    follows it. *)
Fixpoint prefixOf (p : char -> bool) (s : jsstring) : jsstring :=
  match s with
  | c :: s' => if p c then c :: prefixOf p s' else []
  | [] => []
  end.

Fixpoint afterPrefix (p : char -> bool) (s : jsstring) : jsstring :=
  match s with
  | c :: s' => if p c then afterPrefix p s' else s
  | [] => []
  end.

Definition isMarker (c : char) : bool :=
  (c =? Chr.MINUS)%N || (c =? Chr.STAR)%N || (c =? Chr.PLUS)%N.

Definition isSpaceOrTab (c : char) : bool :=
  (c =? Chr.SPACE)%N || (c =? Chr.TAB)%N.

Definition isTab (c : char) : bool := (Chr.TAB =? c)%N.

Definition notTab (c : char) : bool := negb (isTab c).

(** The parse of a line into its four parts. *)
Record LineMatch : Type := mkLineMatch {
  indentPrefix : jsstring;
  bulletChar : char;
  separator : jsstring;
  content : jsstring
}.

(** A deterministic reading of the regular expression of line 63: no
    backtracking, every run taken as long as it goes. *)
Definition parseLine (lineText : jsstring) : option LineMatch :=
  match afterPrefix isWhiteSpace lineText with
  | b :: s2 =>
      if isMarker b then
        match prefixOf isWhiteSpace s2 with
        | [] => None
        | sep =>
            Some (mkLineMatch (prefixOf isWhiteSpace lineText) b sep
                    (prefixOf isDot (afterPrefix isWhiteSpace s2)))
        end
      else None
  | [] => None
  end.

(** The match array of a parse. *)
Definition matchArray (m : LineMatch) : list (option jsstring) :=
  [ Some (indentPrefix m ++ bulletChar m :: separator m ++ content m);
    Some (indentPrefix m); Some [bulletChar m]; Some (separator m);
    Some (content m) ].

(** The pattern in words: an indentation run of characters of the class
    [indentChar], one marker, a non-empty run of whitespace, and anything
    after it.  [line_pattern isSpaceOrTab] is the pattern as the
    specification words it in its component design,
    [line_pattern isWhiteSpace] the one it quotes among its testable
    properties. *)
Definition line_pattern (indentChar : char -> bool) (lineText : jsstring) : Prop :=
  exists indent b sep tail,
    lineText = indent ++ b :: sep ++ tail
    /\ forallb indentChar indent = true
    /\ isMarker b = true
    /\ sep <> []
    /\ forallb isWhiteSpace sep = true.

(** The number of characters of [s] that satisfy [p]. *)
Definition countIf (p : char -> bool) (s : jsstring) : Z :=
  Z.of_nat (length (List.filter p s)).

(** The level of a line, when it is a list item. *)
Definition lineLevel (lineText : jsstring) : option Z :=
  match listMatch lineText with
  | Some m => Some (indentLevel (nth_group m 1))
  | None => None
  end.

Definition is_rewritten {A : Type} (r : Returned A) : bool :=
  match r with
  | ReturnNewLine _ => true
  | ReturnLine _ => false
  end.

(** A text of one line: no line terminator in it. *)
Definition singleLine (s : jsstring) : Prop :=
  forallb isDot s = true.

(** A glyph that begins with a character which is neither whitespace nor a
    list marker. *)
Definition plainGlyph (g : jsstring) : bool :=
  match g with
  | c :: _ => negb (isWhiteSpace c) && negb (isMarker c)
  | [] => false
  end.

Definition plainGlyphs (s : CustomBulletsSettings) : Prop :=
  plainGlyph (level1 s) = true /\ plainGlyph (level2 s) = true
  /\ plainGlyph (level3 s) = true /\ plainGlyph (level4 s) = true
  /\ plainGlyph (level5 s) = true.

(** ** Loading the settings (lines 114-116)

    What [loadData] hands over is the object found in the store: [null]
    when nothing was ever saved, and otherwise an object that has some or
    all of the six keys (a store written by [saveSettings] has them all).
    An absent key is [None]. *)

Record StoredData : Type := mkStored {
  stored_level1 : option jsstring;
  stored_level2 : option jsstring;
  stored_level3 : option jsstring;
  stored_level4 : option jsstring;
  stored_level5 : option jsstring;
  stored_enabled : option bool
}.

(** One key of [Object.assign]: an own key of the source overwrites the
    target's, an absent one leaves it. *)
Definition assignKey {V : Type} (target : V) (source : option V) : V :=
  match source with
  | Some v => v
  | None => target
  end.

(** [Object.assign(target, source)]; a [null] source is skipped. *)
Definition Object_assign (target : CustomBulletsSettings)
    (source : option StoredData) : CustomBulletsSettings :=
  match source with
  | None => target
  | Some d =>
      mkSettings
        (assignKey (level1 target) (stored_level1 d))
        (assignKey (level2 target) (stored_level2 d))
        (assignKey (level3 target) (stored_level3 d))
        (assignKey (level4 target) (stored_level4 d))
        (assignKey (level5 target) (stored_level5 d))
        (assignKey (enabled target) (stored_enabled d))
  end.

(** Line 115, with the awaited result of [loadData] as argument. *)
Definition loadSettings (loaded : option StoredData) : CustomBulletsSettings :=
  Object_assign DEFAULT_SETTINGS loaded.

(** The object that the store returns for a record that was saved. *)
Definition storedOf (s : CustomBulletsSettings) : StoredData :=
  mkStored (Some (level1 s)) (Some (level2 s)) (Some (level3 s))
           (Some (level4 s)) (Some (level5 s)) (Some (enabled s)).

(** The glyph that a stored object has for a field, if it has the key. *)
Definition storedGlyph (f : LevelField) (d : StoredData) : option jsstring :=
  match f with
  | Level1 => stored_level1 d
  | Level2 => stored_level2 d
  | Level3 => stored_level3 d
  | Level4 => stored_level4 d
  | Level5 => stored_level5 d
  end.

(** [loadData] at the next start: what the session wrote, or else what
    the store held when the session began. *)
Definition loadData (found : option StoredData) (p : Plugin) : option StoredData :=
  match data p with
  | Some s => Some (storedOf s)
  | None => found
  end.

(** ** The editor refresh (lines 98-108)

    The editor belongs to the host; the source uses four of its methods.
    A method that changes the editor returns the editor after the call. *)

Record EditorPosition : Type := mkPosition {
  position_line : Z;
  position_ch : Z
}.

Class EditorAPI (E : Type) : Type := {
  getCursor : E -> EditorPosition;
  getValue : E -> jsstring;
  setValue : jsstring -> E -> E;
  setCursor : EditorPosition -> E -> E
}.

(** What the source relies on when it takes the round trip through
    [setValue] and [setCursor] for a refresh. *)
Class EditorLaws (E : Type) `{EditorAPI E} : Prop := {
  getValue_setValue : forall (text : jsstring) (e : E),
    getValue (setValue text e) = text;
  getValue_setCursor : forall (c : EditorPosition) (e : E),
    getValue (setCursor c e) = getValue e;
  getCursor_setCursor : forall (c : EditorPosition) (e : E),
    getCursor (setCursor c e) = c
}.

(** The view of a leaf: a markdown view with its editor, or another one. *)
Inductive View (E : Type) : Type :=
| MarkdownView (editor : E)
| OtherView.

Arguments MarkdownView {E} editor.
Arguments OtherView {E}.

(** [activeLeaf] is [None] when the workspace has no active leaf. *)
Definition updateActiveMDView {E : Type} `{EditorAPI E}
    (activeLeaf : option (View E)) : option (View E) :=
  match activeLeaf with
  | Some (MarkdownView editor) =>
      let cursor := getCursor editor in
      let text := getValue editor in
      let editor := setValue text editor in
      let editor := setCursor cursor editor in
      Some (MarkdownView editor)
  | Some OtherView => Some OtherView
  | None => None
  end.

(** An editor for the examples: a text and a cursor, and a [setValue] that
    sends the cursor to the start of the text. *)
Record PlainEditor : Type := mkPlainEditor {
  plain_text : jsstring;
  plain_cursor : EditorPosition
}.

#[export] Instance PlainEditor_API : EditorAPI PlainEditor := {
  getCursor := plain_cursor;
  getValue := plain_text;
  setValue := fun text _ => mkPlainEditor text (mkPosition 0 0);
  setCursor := fun c e => mkPlainEditor (plain_text e) c
}.

(** ** The running plugin (lines 24-52 and 136-200)

    The plugin with what it shows and drives: the text of its status bar
    item and the active leaf of the workspace.  [data] of the plugin is
    [None] until the session saves for the first time. *)

Record App (E : Type) : Type := mkApp {
  plugin : Plugin;
  statusBarItem : jsstring;
  activeLeaf : option (View E)
}.

Arguments mkApp {E} plugin statusBarItem activeLeaf.
Arguments plugin {E} a.
Arguments statusBarItem {E} a.
Arguments activeLeaf {E} a.

(** Lines 39 and 47: the text of the status bar item. *)
Definition statusText (s : CustomBulletsSettings) : jsstring :=
  js "Custom Bullets: " ++ (if enabled s then js "ON" else js "OFF").

Definition setEnabled (s : CustomBulletsSettings) (value : bool)
    : CustomBulletsSettings :=
  mkSettings (level1 s) (level2 s) (level3 s) (level4 s) (level5 s) value.

(** Lines 24-52: the settings are loaded and the status bar item shows
    the flag. *)
Definition onload {E : Type} (loaded : option StoredData)
    (leaf : option (View E)) : App E :=
  let p := mkPlugin (loadSettings loaded) None in
  mkApp p (statusText (settings p)) leaf.

(** Lines 45-50: the callback of the command "Toggle Custom Bullets". *)
Definition toggleCommand {E : Type} `{EditorAPI E} (a : App E) : App E :=
  let p := assign (plugin a)
             (setEnabled (settings (plugin a))
                (negb (enabled (settings (plugin a))))) in
  let bar := statusText (settings p) in
  let p := saveSettings p in
  mkApp p bar (updateActiveMDView (activeLeaf a)).

(** Lines 141-145: the toggle of the settings tab. *)
Definition onChange_enabled {E : Type} `{EditorAPI E} (value : bool)
    (a : App E) : App E :=
  let p := assign (plugin a) (setEnabled (settings (plugin a)) value) in
  let p := saveSettings p in
  mkApp p (statusBarItem a) (updateActiveMDView (activeLeaf a)).

(** Lines 152-156 and the four like them, with the refresh that ends
    them. *)
Definition onChange_text {E : Type} `{EditorAPI E} (f : LevelField)
    (value : jsstring) (a : App E) : App E :=
  mkApp (onChange f value (plugin a)) (statusBarItem a)
        (updateActiveMDView (activeLeaf a)).

(** What the user can do while the plugin runs. *)
Inductive Event : Type :=
| Command
| TabToggle (value : bool)
| TabText (f : LevelField) (value : jsstring).

Definition handle {E : Type} `{EditorAPI E} (ev : Event) (a : App E) : App E :=
  match ev with
  | Command => toggleCommand a
  | TabToggle value => onChange_enabled value a
  | TabText f value => onChange_text f value a
  end.

(** The events of a session, handled in their order. *)
Definition session {E : Type} `{EditorAPI E} (evs : list Event) (a : App E)
    : App E :=
  fold_left (fun a ev => handle ev a) evs a.

Definition isTabToggle (ev : Event) : bool :=
  match ev with
  | TabToggle _ => true
  | _ => false
  end.

(** Every glyph of the table is a non-empty string. *)
Definition nonEmptyGlyphs (s : CustomBulletsSettings) : Prop :=
  forall f : LevelField, field f s <> [].

(** The field of the settings tab that holds the glyph of an arm of the
    [switch]. *)
Definition armField (a : Arm) : LevelField :=
  match a with
  | Case1 => Level1
  | Case2 => Level2
  | Case3 => Level3
  | Case4 => Level4
  | Default => Level5
  end.

(** * Properties *)

(** ** Prefixes *)

Lemma prefixOf_afterPrefix (p : char -> bool) (s : jsstring) :
  prefixOf p s ++ afterPrefix p s = s.
Proof.
  induction s as [|c s IH]; simpl; [reflexivity|].
  destruct (p c); simpl; [now rewrite IH | reflexivity].
Qed.

Lemma prefixOf_forallb (p : char -> bool) (s : jsstring) :
  forallb p (prefixOf p s) = true.
Proof.
  induction s as [|c s IH]; simpl; [reflexivity|].
  destruct (p c) eqn:E; simpl; [now rewrite E | reflexivity].
Qed.

Lemma afterPrefix_head (p : char -> bool) (s : jsstring) (c : char) (t : jsstring) :
  afterPrefix p s = c :: t -> p c = false.
Proof.
  induction s as [|d s IH]; simpl; [discriminate|].
  destruct (p d) eqn:E; [exact IH|].
  intros H; injection H as -> _; exact E.
Qed.

Lemma prefixOf_app (p : char -> bool) (l r : jsstring) :
  forallb p l = true -> prefixOf p (l ++ r) = l ++ prefixOf p r.
Proof.
  induction l as [|c l IH]; simpl; [reflexivity|].
  intros H; apply andb_prop in H as [Hc Hl].
  now rewrite Hc, IH.
Qed.

Lemma afterPrefix_app (p : char -> bool) (l r : jsstring) :
  forallb p l = true -> afterPrefix p (l ++ r) = afterPrefix p r.
Proof.
  induction l as [|c l IH]; simpl; [reflexivity|].
  intros H; apply andb_prop in H as [Hc Hl].
  now rewrite Hc, IH.
Qed.

Lemma take_prefixOf (p : char -> bool) (s : jsstring) :
  take (length (prefixOf p s)) s = prefixOf p s.
Proof.
  induction s as [|c s IH]; simpl; [reflexivity|].
  destruct (p c); simpl; [now rewrite IH | reflexivity].
Qed.

(** ** The greedy star *)

Lemma orElse_None_r (a : option MState) : orElse a None = a.
Proof. now destruct a. Qed.

(** When the continuation accepts the longest repetition, that is the one
    the star settles on. *)
Lemma starCls_longest (p : char -> bool) (input : jsstring) (i : nat)
    (cs : list (option jsstring)) (k : Cont) (y : MState) :
  k (mkState (i + length (prefixOf p input)) (afterPrefix p input) cs) = Some y ->
  starCls p input i cs k = Some y.
Proof.
  revert i; induction input as [|c input IH]; intros i; simpl.
  - now rewrite Nat.add_0_r.
  - destruct (p c); simpl.
    + rewrite Nat.add_succ_r. intros H. now rewrite (IH (S i) H).
    + now rewrite Nat.add_0_r.
Qed.

(** When the continuation refuses every state that still starts with a
    character of the class, giving characters back cannot help. *)
Lemma starCls_no_backtrack (p : char -> bool) (input : jsstring) (i : nat)
    (cs : list (option jsstring)) (k : Cont) :
  (forall j c t, p c = true -> k (mkState j (c :: t) cs) = None) ->
  starCls p input i cs k
  = k (mkState (i + length (prefixOf p input)) (afterPrefix p input) cs).
Proof.
  intros Hk. revert i; induction input as [|c input IH]; intros i; simpl.
  - now rewrite Nat.add_0_r.
  - destruct (p c) eqn:E; simpl.
    + rewrite (Hk i c input E), orElse_None_r, Nat.add_succ_r. apply IH.
    + now rewrite Nat.add_0_r.
Qed.

Lemma whitespace_not_marker (c : char) :
  isWhiteSpace c = true -> isMarker c = false.
Proof.
  unfold isMarker. intros H.
  destruct (N.eqb_spec c Chr.MINUS) as [->|_]; [discriminate H|].
  destruct (N.eqb_spec c Chr.STAR) as [->|_]; [discriminate H|].
  destruct (N.eqb_spec c Chr.PLUS) as [->|_]; [discriminate H|].
  reflexivity.
Qed.

(** ** The regular expression of line 63, piece by piece *)

Lemma take_sub_prefixOf (p : char -> bool) (s : jsstring) (i : nat) :
  take (i + length (prefixOf p s) - i) s = prefixOf p s.
Proof.
  replace (i + length (prefixOf p s) - i)%nat with (length (prefixOf p s)) by lia.
  apply take_prefixOf.
Qed.

Lemma run_marker_group (x : MState) (k : Cont) :
  run (Grp 2 (Alt (Lit Chr.MINUS) (Alt (Lit Chr.STAR) (Lit Chr.PLUS)))) x k
  = match rest x with
    | b :: t =>
        if isMarker b
        then k (mkState (S (pos x)) t (<[2%nat := Some [b]]> (caps x)))
        else None
    | [] => None
    end.
Proof.
  cbn [run]. unfold oneChar, isMarker.
  destruct (rest x) as [|b t]; [reflexivity|].
  cbn [pos rest caps].
  replace (S (pos x) - pos x)%nat with 1%nat by lia. cbn [take].
  rewrite (N.eqb_sym Chr.MINUS), (N.eqb_sym Chr.STAR), (N.eqb_sym Chr.PLUS).
  destruct (N.eqb_spec b Chr.MINUS) as [->|_].
  { cbn. apply orElse_None_r. }
  destruct (N.eqb_spec b Chr.STAR) as [->|_].
  { cbn. apply orElse_None_r. }
  destruct (N.eqb_spec b Chr.PLUS) as [->|_]; reflexivity.
Qed.

Lemma run_separator_content (x : MState) :
  run (Seq (Grp 3 (Plus isWhiteSpace)) (Grp 4 (Star isDot))) x Some
  = match prefixOf isWhiteSpace (rest x) with
    | [] => None
    | sep =>
        let s4 := afterPrefix isWhiteSpace (rest x) in
        Some (mkState (pos x + length sep + length (prefixOf isDot s4))
                (afterPrefix isDot s4)
                (<[4%nat := Some (prefixOf isDot s4)]>
                   (<[3%nat := Some sep]> (caps x))))
    end.
Proof.
  cbn [run]. unfold oneChar.
  destruct (rest x) as [|c t]; [reflexivity|].
  cbn [prefixOf afterPrefix pos rest caps].
  destruct (isWhiteSpace c); [|reflexivity].
  apply starCls_longest. cbn [pos rest caps].
  apply starCls_longest. cbn [pos rest caps].
  rewrite take_sub_prefixOf.
  replace (S (pos x) + length (prefixOf isWhiteSpace t) - pos x)%nat
    with (S (length (prefixOf isWhiteSpace t))) by lia.
  cbn [take length]. rewrite take_prefixOf.
  do 2 f_equal. lia.
Qed.

(** An attempt at the start of the text is the deterministic parse. *)
Lemma attempt_listRegex (lineText : jsstring) :
  attempt listRegex 4 0 lineText
  = match parseLine lineText with
    | Some m => Some (matchArray m)
    | None => None
    end.
Proof.
  unfold attempt, listRegex.
  set (M := Grp 2 _). set (T := Seq (Grp 3 _) _).
  cbn [run Nat.eqb pos rest caps].
  rewrite starCls_no_backtrack.
  2:{ intros j c t Hc. subst M. rewrite run_marker_group. cbn [rest].
      now rewrite (whitespace_not_marker c Hc). }
  subst M. rewrite run_marker_group. cbn [pos rest caps].
  unfold parseLine.
  destruct (afterPrefix isWhiteSpace lineText) as [|b s2] eqn:E; [reflexivity|].
  destruct (isMarker b); [|reflexivity].
  subst T. rewrite run_separator_content. cbn [pos rest caps].
  destruct (prefixOf isWhiteSpace s2) as [|c sep] eqn:E2; [reflexivity|].
  cbn zeta. cbn [pos rest caps]. unfold matchArray.
  cbn [indentPrefix bulletChar separator content].
  rewrite take_sub_prefixOf.
  set (indent := prefixOf isWhiteSpace lineText).
  set (body := prefixOf isDot (afterPrefix isWhiteSpace s2)).
  assert (Hwhole : lineText
            = (indent ++ b :: (c :: sep) ++ body)
                ++ afterPrefix isDot (afterPrefix isWhiteSpace s2)).
  { subst indent body.
    rewrite <- (prefixOf_afterPrefix isWhiteSpace lineText) at 1.
    rewrite E, <- (prefixOf_afterPrefix isWhiteSpace s2) at 1.
    rewrite E2, <- (prefixOf_afterPrefix isDot (afterPrefix isWhiteSpace s2)) at 1.
    now rewrite <- !app_assoc, <- !app_comm_cons, <- !app_assoc. }
  rewrite Hwhole at 1.
  assert (Hlen : (S (0 + length indent) + length (c :: sep) + length body - 0)%nat
                 = length (indent ++ b :: (c :: sep) ++ body)).
  { rewrite !length_app. cbn [length]. rewrite length_app. cbn [length]. lia. }
  rewrite Hlen, take_app_length. reflexivity.
Qed.

(** Past the start of the text the anchor refuses every attempt. *)
Lemma search_anchored_later (r : regex) (n : nat) (input : jsstring) (i : nat) :
  search (Seq Bol r) n (S i) input = None.
Proof.
  revert i; induction input as [|c input IH]; intros i.
  - reflexivity.
  - cbn [search]. unfold attempt. cbn [run pos Nat.eqb]. apply IH.
Qed.

(** [listMatch] is the deterministic parse. *)
Lemma listMatch_parseLine (lineText : jsstring) :
  listMatch lineText
  = match parseLine lineText with
    | Some m => Some (matchArray m)
    | None => None
    end.
Proof.
  unfold listMatch, jsmatch.
  destruct lineText as [|c t].
  - reflexivity.
  - cbn [search]. rewrite attempt_listRegex.
    destruct (parseLine (c :: t)); [reflexivity|].
    apply (search_anchored_later _ 4 t 0).
Qed.

(** ** What a parse tells about the line *)

Lemma parseLine_parts (lineText : jsstring) (m : LineMatch) :
  parseLine lineText = Some m ->
  exists tail,
    lineText = indentPrefix m ++ bulletChar m :: separator m ++ content m ++ tail
    /\ indentPrefix m = prefixOf isWhiteSpace lineText
    /\ forallb isWhiteSpace (indentPrefix m) = true
    /\ isMarker (bulletChar m) = true
    /\ separator m <> []
    /\ forallb isWhiteSpace (separator m) = true
    /\ forallb isDot (content m) = true
    /\ (tail = [] \/ exists c t, tail = c :: t /\ isLineTerminator c = true).
Proof.
  unfold parseLine.
  destruct (afterPrefix isWhiteSpace lineText) as [|b s2] eqn:E; [discriminate|].
  destruct (isMarker b) eqn:Hb; [|discriminate].
  destruct (prefixOf isWhiteSpace s2) as [|c sep] eqn:E2; [discriminate|].
  intros H; injection H as <-. cbn [indentPrefix bulletChar separator content].
  exists (afterPrefix isDot (afterPrefix isWhiteSpace s2)).
  repeat split.
  - rewrite <- (prefixOf_afterPrefix isWhiteSpace lineText) at 1.
    rewrite E, <- (prefixOf_afterPrefix isWhiteSpace s2) at 1.
    rewrite E2, <- (prefixOf_afterPrefix isDot (afterPrefix isWhiteSpace s2)) at 1.
    reflexivity.
  - apply prefixOf_forallb.
  - exact Hb.
  - discriminate.
  - rewrite <- E2. apply prefixOf_forallb.
  - apply prefixOf_forallb.
  - destruct (afterPrefix isDot (afterPrefix isWhiteSpace s2)) as [|d t] eqn:E3;
      [now left | right].
    exists d, t. split; [reflexivity|].
    apply afterPrefix_head in E3. unfold isDot in E3.
    now apply negb_false_iff in E3.
Qed.

(** A line that has the shape of the pattern parses, and into the parts of
    that shape. *)
Lemma parseLine_of_shape (indent : jsstring) (b : char) (sep tail : jsstring) :
  forallb isWhiteSpace indent = true ->
  isMarker b = true ->
  sep <> [] ->
  forallb isWhiteSpace sep = true ->
  parseLine (indent ++ b :: sep ++ tail)
  = Some (mkLineMatch indent b (sep ++ prefixOf isWhiteSpace tail)
            (prefixOf isDot (afterPrefix isWhiteSpace tail))).
Proof.
  intros Hi Hb Hne Hs. unfold parseLine.
  assert (Hnb : isWhiteSpace b = false).
  { destruct (isWhiteSpace b) eqn:E; [|reflexivity].
    apply whitespace_not_marker in E. congruence. }
  rewrite afterPrefix_app, prefixOf_app by exact Hi.
  cbn [afterPrefix prefixOf]. rewrite Hnb, Hb, app_nil_r.
  rewrite prefixOf_app, afterPrefix_app by exact Hs.
  destruct sep as [|c sep]; [contradiction|]. reflexivity.
Qed.

Lemma line_pattern_parseLine (lineText : jsstring) :
  line_pattern isWhiteSpace lineText <-> exists m, parseLine lineText = Some m.
Proof.
  split.
  - intros (indent & b & sep & tail & -> & Hi & Hb & Hne & Hs).
    eexists. now apply parseLine_of_shape.
  - intros [m Hm]. destruct (parseLine_parts _ _ Hm)
      as (tail & Heq & _ & Hi & Hb & Hne & Hs & _ & _).
    exists (indentPrefix m), (bulletChar m), (separator m), (content m ++ tail).
    repeat split; assumption.
Qed.

Lemma not_line_pattern_parseLine (lineText : jsstring) :
  ~ line_pattern isWhiteSpace lineText <-> parseLine lineText = None.
Proof.
  rewrite line_pattern_parseLine. split.
  - intros H. destruct (parseLine lineText) as [m|]; [|reflexivity].
    exfalso. apply H. now exists m.
  - intros -> [m Hm]. discriminate.
Qed.

(** ** [processLine] in terms of the parse *)

Lemma processLine_parseLine {A : Type} (s : CustomBulletsSettings) (line : A)
    (lineText : jsstring) :
  processLine s line lineText
  = if enabled s then
      match parseLine lineText with
      | Some m =>
          ReturnNewLine
            (indentPrefix m ++ customBullet s (indentLevel (Some (indentPrefix m)))
               ++ separator m ++ content m)
      | None => ReturnLine line
      end
    else ReturnLine line.
Proof.
  unfold processLine. destruct (enabled s); [|reflexivity]. cbn [negb].
  rewrite listMatch_parseLine. now destruct (parseLine lineText).
Qed.

Lemma listMatch_Some (lineText : jsstring) (a : list (option jsstring)) :
  listMatch lineText = Some a ->
  exists m, parseLine lineText = Some m /\ a = matchArray m.
Proof.
  rewrite listMatch_parseLine. destruct (parseLine lineText) as [m|]; [|discriminate].
  intros H; injection H as <-. now exists m.
Qed.

(** ** The level of an indentation *)

Lemma jsmatch_all_lit_length (c : char) (s : jsstring) :
  jslength (or_empty (jsmatch_all_lit c s))
  = Z.of_nat (length (List.filter (N.eqb c) s)).
Proof.
  unfold jsmatch_all_lit, jslength.
  destruct (List.filter (N.eqb c) s) as [|o os]; cbn [or_empty].
  - reflexivity.
  - now rewrite length_map.
Qed.

Lemma indentLevel_formula (indent : jsstring) :
  indentLevel (Some indent)
  = 1 + countIf isTab indent + countIf notTab indent / 2.
Proof.
  unfold indentLevel.
  destruct indent as [|c t]; [reflexivity|].
  cbv zeta. rewrite jsmatch_all_lit_length. reflexivity.
Qed.

Lemma countIf_nonneg (p : char -> bool) (s : jsstring) : 0 <= countIf p s.
Proof. unfold countIf. lia. Qed.

Lemma indentLevel_positive (indent : option jsstring) : 1 <= indentLevel indent.
Proof.
  destruct indent as [indent|]; [|cbn; lia].
  rewrite indentLevel_formula.
  pose proof (countIf_nonneg isTab indent).
  pose proof (countIf_nonneg notTab indent).
  pose proof (Z.div_pos (countIf notTab indent) 2). lia.
Qed.

Lemma countIf_Permutation (p : char -> bool) (s t : jsstring) :
  Permutation s t -> countIf p s = countIf p t.
Proof.
  unfold countIf. intros H. f_equal.
  induction H as [|c s t _ IH|c d s|s t u _ IH1 _ IH2]; cbn [List.filter].
  - reflexivity.
  - destruct (p c); cbn [length]; now rewrite IH.
  - destruct (p c), (p d); reflexivity.
  - now rewrite IH1.
Qed.

(** ** The model at work *)

Example listMatch_task :
  listMatch (js "  - task [ ]")
  = Some [Some (js "  - task [ ]"); Some (js "  "); Some (js "-");
          Some (js " "); Some (js "task [ ]")].
Proof. vm_compute; reflexivity. Qed.

Example listMatch_not_at_start : listMatch (js "a - b") = None.
Proof. vm_compute; reflexivity. Qed.

Example listMatch_rule : listMatch (js "---") = None.
Proof. vm_compute; reflexivity. Qed.

(** The separator may hold any whitespace, a line break included; the
    content stops at the first line terminator. *)
Example listMatch_line_break :
  listMatch (js "* " ++ Chr.LF :: js " x" ++ Chr.LS :: js "y")
  = Some [Some (js "* " ++ Chr.LF :: js " x"); Some []; Some (js "*");
          Some (js " " ++ Chr.LF :: js " "); Some (js "x")].
Proof. vm_compute; reflexivity. Qed.

Example rewrite_default_levels :
  rewrite DEFAULT_SETTINGS (js "- a") = 8226%N :: js " a"
  /\ rewrite DEFAULT_SETTINGS (js "  + a") = js "  " ++ 9702%N :: js " a"
  /\ rewrite DEFAULT_SETTINGS (Chr.TAB :: Chr.TAB :: js "* a")
     = Chr.TAB :: Chr.TAB :: 9642%N :: js " a"
  /\ rewrite DEFAULT_SETTINGS (js "        -  a") = js "        " ++ 8259%N :: js "  a".
Proof. repeat split. Qed.

(** ** The nesting level (lines 69-79) *)

(** C1.  For every line recognized as a list item, the level computed from
    the captured indentation is 1 + (number of tabs in it) + floor((number
    of its other characters) / 2).  The six lines of the specification get
    the levels 1, 2, 3, 2, 3 and 2, and the level does not depend on the
    order in which tabs and spaces come in the indentation. *)
Theorem level_of_list_item :
  (forall (lineText : jsstring) (a : list (option jsstring)),
      listMatch lineText = Some a ->
      exists indent : jsstring,
        nth_group a 1 = Some indent
        /\ indent = prefixOf isWhiteSpace lineText
        /\ indentLevel (nth_group a 1)
           = 1 + countIf isTab indent + countIf notTab indent / 2)
  /\ lineLevel (js "- a") = Some 1
  /\ lineLevel (js "  - a") = Some 2
  /\ lineLevel (js "    - a") = Some 3
  /\ lineLevel (Chr.TAB :: js "- a") = Some 2
  /\ lineLevel (Chr.TAB :: Chr.TAB :: js "- a") = Some 3
  /\ lineLevel (js "   - a") = Some 2
  /\ (forall indent indent' : jsstring,
        Permutation indent indent' ->
        indentLevel (Some indent) = indentLevel (Some indent')).
Proof.
  split; [|repeat split; try (vm_compute; reflexivity)].
  - intros lineText a Ha.
    destruct (listMatch_Some _ _ Ha) as (m & Hm & ->).
    exists (indentPrefix m). cbn [matchArray nth_group lookup list_lookup].
    destruct (parseLine_parts _ _ Hm) as (tail & _ & Hi & _).
    repeat split; [exact Hi | apply indentLevel_formula].
  - intros indent indent' Hp.
    rewrite !indentLevel_formula.
    now rewrite (countIf_Permutation isTab _ _ Hp),
                (countIf_Permutation notTab _ _ Hp).
Qed.

Lemma level_of_list_item_witness :
  listMatch (Chr.TAB :: js "  - a")
    = Some [Some (Chr.TAB :: js "  - a"); Some (Chr.TAB :: js "  ");
            Some (js "-"); Some (js " "); Some (js "a")]
  /\ (exists indent : jsstring,
        nth_group [Some (Chr.TAB :: js "  - a"); Some (Chr.TAB :: js "  ");
                   Some (js "-"); Some (js " "); Some (js "a")] 1
          = Some indent
        /\ indent = prefixOf isWhiteSpace (Chr.TAB :: js "  - a")
        /\ indentLevel
             (nth_group [Some (Chr.TAB :: js "  - a"); Some (Chr.TAB :: js "  ");
                         Some (js "-"); Some (js " "); Some (js "a")] 1)
           = 1 + countIf isTab indent + countIf notTab indent / 2)
  /\ indentLevel (Some (Chr.TAB :: js "  "))
     = indentLevel (Some (js " " ++ Chr.TAB :: js " ")).
Proof.
  split; [vm_compute; reflexivity|]. split.
  - apply (proj1 level_of_list_item (Chr.TAB :: js "  - a")).
    vm_compute; reflexivity.
  - apply (proj2 (proj2 (proj2 (proj2 (proj2 (proj2 (proj2 level_of_list_item))))))).
    apply perm_swap.
Defined.

(** ** The glyph of a level (lines 82-89) *)

(** C3.  The glyph put in place of the marker of a matched line is the one
    the [switch] selects for the computed level: level1 at 1, level2 at 2,
    level3 at 3, level4 at 4, and level5 at 5 and above and at any other
    value. *)
Theorem glyph_of_level :
  (forall (s : CustomBulletsSettings),
      customBullet s 1 = level1 s
      /\ customBullet s 2 = level2 s
      /\ customBullet s 3 = level3 s
      /\ customBullet s 4 = level4 s
      /\ (forall level : Z, 5 <= level \/ level < 1 ->
            customBullet s level = level5 s))
  /\ (forall (s : CustomBulletsSettings) (A : Type) (line : A)
        (lineText : jsstring) (a : list (option jsstring)),
        enabled s = true ->
        listMatch lineText = Some a ->
        processLine s line lineText
        = ReturnNewLine
            (toString (nth_group a 1)
               ++ customBullet s (indentLevel (nth_group a 1))
               ++ toString (nth_group a 3) ++ toString (nth_group a 4))).
Proof.
  split.
  - intros s. repeat split.
    intros level H. unfold customBullet, switchArm.
    destruct level as [|q|q]; [reflexivity| |reflexivity].
    destruct q as [[[q|q|]|[q|q|]|]|[[q|q|]|[q|q|]|]|]; try reflexivity; lia.
  - intros s A line lineText a He Ha. unfold processLine.
    now rewrite He, Ha.
Qed.

Lemma glyph_of_level_witness :
  customBullet DEFAULT_SETTINGS 7 = level5 DEFAULT_SETTINGS
  /\ processLine DEFAULT_SETTINGS tt (js "  - a")
     = ReturnNewLine
         (js "  " ++ customBullet DEFAULT_SETTINGS 2 ++ js " " ++ js "a").
Proof.
  split.
  - apply (proj1 glyph_of_level DEFAULT_SETTINGS). left. lia.
  - apply (proj2 glyph_of_level DEFAULT_SETTINGS unit tt (js "  - a")
             [Some (js "  - a"); Some (js "  "); Some (js "-"); Some (js " ");
              Some (js "a")]).
    + reflexivity.
    + vm_compute; reflexivity.
Defined.

(** C10.  The level of a matched line is at least 1, so the catch-all arm of
    the [switch] is the one taken exactly when the level is 5 or more. *)
Theorem level_at_least_one (lineText : jsstring) (a : list (option jsstring)) :
  listMatch lineText = Some a ->
  1 <= indentLevel (nth_group a 1)
  /\ (switchArm (indentLevel (nth_group a 1)) = Default
      <-> 5 <= indentLevel (nth_group a 1))
  /\ (forall s : CustomBulletsSettings,
        customBullet s (indentLevel (nth_group a 1))
        = armBullet s (switchArm (indentLevel (nth_group a 1)))).
Proof.
  intros _.
  pose proof (indentLevel_positive (nth_group a 1)) as Hpos.
  split; [exact Hpos|]. split; [|reflexivity].
  destruct (indentLevel (nth_group a 1)) as [|q|q]; [lia| |lia].
  unfold switchArm.
  destruct q as [[[q|q|]|[q|q|]|]|[[q|q|]|[q|q|]|]|];
    split; intros H; try reflexivity; try discriminate H; lia.
Qed.

Lemma level_at_least_one_witness :
  listMatch (js "          - deep")
    = Some [Some (js "          - deep"); Some (js "          ");
            Some (js "-"); Some (js " "); Some (js "deep")]
  /\ 1 <= indentLevel (Some (js "          "))
  /\ (switchArm (indentLevel (Some (js "          "))) = Default
      <-> 5 <= indentLevel (Some (js "          ")))
  /\ (forall s : CustomBulletsSettings,
        customBullet s (indentLevel (Some (js "          ")))
        = armBullet s (switchArm (indentLevel (Some (js "          "))))).
Proof.
  split; [vm_compute; reflexivity|].
  apply (level_at_least_one (js "          - deep")
           [Some (js "          - deep"); Some (js "          ");
            Some (js "-"); Some (js " "); Some (js "deep")]).
  vm_compute; reflexivity.
Defined.

(** ** Lines that are left as they are *)

Lemma rewrite_parseLine (s : CustomBulletsSettings) (lineText : jsstring) :
  rewrite s lineText
  = if enabled s then
      match parseLine lineText with
      | Some m =>
          indentPrefix m ++ customBullet s (indentLevel (Some (indentPrefix m)))
            ++ separator m ++ content m
      | None => lineText
      end
    else lineText.
Proof.
  unfold rewrite. rewrite processLine_parseLine.
  destruct (enabled s); [|reflexivity]. now destruct (parseLine lineText).
Qed.

(** C6.  With the feature disabled, [processLine] hands its line back,
    whatever the text and the glyph table. *)
Theorem disabled_unchanged (s : CustomBulletsSettings) (A : Type) (line : A)
    (lineText : jsstring) :
  enabled s = false ->
  processLine s line lineText = ReturnLine line
  /\ rewrite s lineText = lineText.
Proof.
  intros He. unfold rewrite, processLine. now rewrite He.
Qed.

Lemma disabled_unchanged_witness :
  processLine (mkSettings (js "a") (js "b") (js "c") (js "d") (js "e") false)
    tt (js "  - task")
  = ReturnLine tt
  /\ rewrite (mkSettings (js "a") (js "b") (js "c") (js "d") (js "e") false)
       (js "  - task")
     = js "  - task".
Proof.
  apply (disabled_unchanged
           (mkSettings (js "a") (js "b") (js "c") (js "d") (js "e") false)
           unit tt (js "  - task")).
  reflexivity.
Defined.

(** C5.  A line that does not have the shape "whitespace, one marker,
    whitespace" is handed back as it is, for every glyph table and also
    when the feature is enabled; so are the empty line, a horizontal rule,
    a numbered item and plain text. *)
Theorem unmatched_unchanged :
  (forall (s : CustomBulletsSettings) (A : Type) (line : A)
      (lineText : jsstring),
      ~ line_pattern isWhiteSpace lineText ->
      processLine s line lineText = ReturnLine line
      /\ rewrite s lineText = lineText)
  /\ (forall s : CustomBulletsSettings,
        rewrite s [] = []
        /\ rewrite s (js "---") = js "---"
        /\ rewrite s (js "1. first") = js "1. first"
        /\ rewrite s (js "plain text") = js "plain text"
        /\ rewrite s (js "-item") = js "-item")
  /\ ~ line_pattern isWhiteSpace (js "---").
Proof.
  split; [|split].
  - intros s A line lineText H.
    apply not_line_pattern_parseLine in H.
    rewrite rewrite_parseLine, processLine_parseLine, H.
    now destruct (enabled s).
  - intros s. rewrite !rewrite_parseLine.
    destruct (enabled s); repeat split.
  - apply not_line_pattern_parseLine. reflexivity.
Qed.

Lemma unmatched_unchanged_witness :
  processLine DEFAULT_SETTINGS tt (js "---") = ReturnLine tt
  /\ rewrite DEFAULT_SETTINGS (js "---") = js "---".
Proof.
  apply (proj1 unmatched_unchanged DEFAULT_SETTINGS unit tt (js "---")).
  apply (proj2 (proj2 unmatched_unchanged)).
Defined.

(** C9.  [processLine] returns in every case: it hands the line back when
    the feature is disabled or the text has not the shape of a list item,
    and otherwise returns a string built from four captured groups, none of
    which is undefined. *)
Theorem processLine_total (s : CustomBulletsSettings) (A : Type) (line : A)
    (lineText : jsstring) :
  (processLine s line lineText = ReturnLine line
   /\ rewrite s lineText = lineText
   /\ (enabled s = false \/ ~ line_pattern isWhiteSpace lineText))
  \/ (enabled s = true
      /\ line_pattern isWhiteSpace lineText
      /\ exists whole indent bullet space body : jsstring,
           listMatch lineText
           = Some [Some whole; Some indent; Some bullet; Some space; Some body]
           /\ processLine s line lineText
              = ReturnNewLine
                  (indent ++ customBullet s (indentLevel (Some indent))
                     ++ space ++ body)
           /\ rewrite s lineText
              = indent ++ customBullet s (indentLevel (Some indent))
                  ++ space ++ body).
Proof.
  rewrite rewrite_parseLine, processLine_parseLine, listMatch_parseLine.
  destruct (enabled s) eqn:He; [|left; repeat split; now left].
  destruct (parseLine lineText) as [m|] eqn:Hm.
  - right. split; [reflexivity|]. split.
    + apply line_pattern_parseLine. now exists m.
    + unfold matchArray. now eexists _, _, _, _, _.
  - left. repeat split. right. now apply not_line_pattern_parseLine.
Qed.

(** ** The rewritten line (lines 92-93) *)

Lemma singleLine_no_tail (front tail : jsstring) :
  singleLine (front ++ tail) ->
  (tail = [] \/ exists c t, tail = c :: t /\ isLineTerminator c = true) ->
  tail = [].
Proof.
  unfold singleLine. rewrite forallb_app. intros H [->|(c & t & -> & Hc)].
  - reflexivity.
  - apply andb_prop in H as [_ H]. cbn [forallb] in H.
    unfold isDot in H. rewrite Hc in H. discriminate H.
Qed.

(** C4.  The output for a matched line is the captured indentation, the
    selected glyph, the captured separator and the captured content, in
    this order and each as it was captured.  The captured parts make up the
    text up to its first line terminator, with the one marker character
    between indentation and separator, so in a text of one line only the
    marker is replaced.  For example "  - task [ ]" becomes "  ◦ task [ ]"
    when level2 is "◦". *)
Theorem output_keeps_line :
  (forall (s : CustomBulletsSettings) (A : Type) (line : A)
      (lineText : jsstring) (a : list (option jsstring)),
      enabled s = true ->
      listMatch lineText = Some a ->
      exists (indent : jsstring) (bullet : char) (space body tail : jsstring),
        a = [Some (indent ++ bullet :: space ++ body); Some indent;
             Some [bullet]; Some space; Some body]
        /\ lineText = indent ++ bullet :: space ++ body ++ tail
        /\ isMarker bullet = true
        /\ (singleLine lineText -> tail = [])
        /\ processLine s line lineText
           = ReturnNewLine
               (indent ++ customBullet s (indentLevel (Some indent))
                  ++ space ++ body)
        /\ rewrite s lineText
           = indent ++ customBullet s (indentLevel (Some indent))
               ++ space ++ body)
  /\ (forall l1 l3 l4 l5 : jsstring,
        rewrite (mkSettings l1 [9702%N] l3 l4 l5 true) (js "  - task [ ]")
        = js "  " ++ [9702%N] ++ js " task [ ]").
Proof.
  split; [|reflexivity].
  intros s A line lineText a He Ha.
  destruct (listMatch_Some _ _ Ha) as (m & Hm & ->).
  destruct (parseLine_parts _ _ Hm) as (tail & Heq & _ & _ & Hb & _ & _ & _ & Ht).
  exists (indentPrefix m), (bulletChar m), (separator m), (content m), tail.
  rewrite rewrite_parseLine, processLine_parseLine, He, Hm.
  repeat split; try assumption.
  intros Hs. rewrite Heq in Hs.
  replace (indentPrefix m ++ bulletChar m :: separator m ++ content m ++ tail)
    with ((indentPrefix m ++ bulletChar m :: separator m ++ content m) ++ tail)
    in Hs by (now rewrite <- !app_assoc, <- app_comm_cons, <- app_assoc).
  exact (singleLine_no_tail _ _ Hs Ht).
Qed.

Lemma output_keeps_line_witness :
  exists (indent : jsstring) (bullet : char) (space body tail : jsstring),
    [Some (js "  * task [ ]"); Some (js "  "); Some (js "*"); Some (js " ");
     Some (js "task [ ]")]
    = [Some (indent ++ bullet :: space ++ body); Some indent;
       Some [bullet]; Some space; Some body]
    /\ js "  * task [ ]" = indent ++ bullet :: space ++ body ++ tail
    /\ isMarker bullet = true
    /\ (singleLine (js "  * task [ ]") -> tail = [])
    /\ processLine DEFAULT_SETTINGS tt (js "  * task [ ]")
       = ReturnNewLine
           (indent ++ customBullet DEFAULT_SETTINGS (indentLevel (Some indent))
              ++ space ++ body)
    /\ rewrite DEFAULT_SETTINGS (js "  * task [ ]")
       = indent ++ customBullet DEFAULT_SETTINGS (indentLevel (Some indent))
           ++ space ++ body.
Proof.
  apply (proj1 output_keeps_line DEFAULT_SETTINGS unit tt (js "  * task [ ]")).
  - reflexivity.
  - vm_compute; reflexivity.
Defined.

(** ** The shape of a list item (lines 63-66) *)

Lemma isSpaceOrTab_isWhiteSpace (c : char) :
  isSpaceOrTab c = true -> isWhiteSpace c = true.
Proof.
  unfold isSpaceOrTab. intros H. apply orb_prop in H as [H|H];
    apply N.eqb_eq in H; now subst c.
Qed.

Lemma forallb_isSpaceOrTab (s : jsstring) :
  forallb isSpaceOrTab s = true -> forallb isWhiteSpace s = true.
Proof.
  induction s as [|c s IH]; cbn [forallb]; [reflexivity|].
  intros H. apply andb_prop in H as [Hc Hs].
  now rewrite (isSpaceOrTab_isWhiteSpace c Hc), IH.
Qed.

(** C2, as the code has it.  With the feature enabled, a line is rewritten
    if and only if it consists of a possibly empty run of whitespace
    characters of any kind (the class of the regular expression, of which
    space and tab are two members), exactly one of the characters '-', '*'
    and '+', one or more whitespace characters, and any remainder.  A line
    indented with spaces and tabs only is a case of it. *)
Theorem rewritten_iff_pattern (s : CustomBulletsSettings) (A : Type)
    (line : A) (lineText : jsstring) :
  enabled s = true ->
  (is_rewritten (processLine s line lineText) = true
   <-> line_pattern isWhiteSpace lineText)
  /\ (line_pattern isSpaceOrTab lineText ->
      is_rewritten (processLine s line lineText) = true).
Proof.
  intros He.
  assert (Hiff : is_rewritten (processLine s line lineText) = true
                 <-> line_pattern isWhiteSpace lineText).
  { rewrite processLine_parseLine, He, line_pattern_parseLine.
    destruct (parseLine lineText) as [m|]; cbn [is_rewritten]; split.
    - intros _. now exists m.
    - reflexivity.
    - discriminate.
    - intros [m Hm]. discriminate Hm. }
  split; [exact Hiff|].
  intros (indent & b & sep & tail & Heq & Hi & Hrest).
  apply Hiff. exists indent, b, sep, tail.
  split; [exact Heq|]. split; [|exact Hrest].
  now apply forallb_isSpaceOrTab.
Qed.

Lemma rewritten_iff_pattern_witness :
  (is_rewritten (processLine DEFAULT_SETTINGS tt (js " + x")) = true
   <-> line_pattern isWhiteSpace (js " + x"))
  /\ is_rewritten (processLine DEFAULT_SETTINGS tt (js " + x")) = true.
Proof.
  destruct (rewritten_iff_pattern DEFAULT_SETTINGS unit tt (js " + x") eq_refl)
    as [H1 H2].
  split; [exact H1|]. apply H2.
  exists (js " "), Chr.PLUS, (js " "), (js "x"). repeat split. discriminate.
Defined.

(** A line indented with a no-break space is rewritten, although its
    indentation is neither a space nor a tab. *)
Lemma indentation_not_only_space_or_tab :
  ~ (is_rewritten
       (processLine DEFAULT_SETTINGS tt (Chr.NBSP :: js "- a")) = true
     <-> line_pattern isSpaceOrTab (Chr.NBSP :: js "- a")).
Proof.
  intros [H _].
  destruct (H eq_refl) as (indent & b & sep & tail & Heq & Hi & Hb & _).
  destruct indent as [|c indent]; cbn in Heq; injection Heq as <- _.
  - discriminate Hb.
  - discriminate Hi.
Qed.

(** ** Rewriting twice *)

Lemma plainGlyphs_customBullet (s : CustomBulletsSettings) (level : Z) :
  plainGlyphs s -> plainGlyph (customBullet s level) = true.
Proof.
  intros (H1 & H2 & H3 & H4 & H5). unfold customBullet.
  now destruct (switchArm level).
Qed.

(** A text that has a plain glyph right after its leading whitespace is not
    a list item. *)
Lemma parseLine_plainGlyph (indent g tail : jsstring) :
  forallb isWhiteSpace indent = true ->
  plainGlyph g = true ->
  parseLine (indent ++ g ++ tail) = None.
Proof.
  intros Hi Hg. unfold parseLine. rewrite afterPrefix_app by exact Hi.
  destruct g as [|c g]; [discriminate Hg|].
  cbn [plainGlyph] in Hg. apply andb_prop in Hg as [Hw Hm].
  apply negb_true_iff in Hw, Hm.
  cbn [app afterPrefix]. now rewrite Hw, Hm.
Qed.

(** C7, as the code has it.  When every glyph of the table begins with a
    character that is neither whitespace nor one of '-', '*' and '+', the
    output of a rewrite is no list item any more, so rewriting it again
    changes nothing. *)
Theorem rewrite_twice (s : CustomBulletsSettings) (lineText : jsstring) :
  plainGlyphs s ->
  (enabled s = true -> line_pattern isWhiteSpace lineText ->
   listMatch (rewrite s lineText) = None)
  /\ rewrite s (rewrite s lineText) = rewrite s lineText.
Proof.
  intros Hs.
  assert (Hout : forall m, parseLine lineText = Some m ->
            parseLine (indentPrefix m
                         ++ customBullet s (indentLevel (Some (indentPrefix m)))
                         ++ separator m ++ content m) = None).
  { intros m Hm.
    destruct (parseLine_parts _ _ Hm) as (tail & _ & _ & Hi & _).
    apply parseLine_plainGlyph; [exact Hi|].
    now apply plainGlyphs_customBullet. }
  split.
  - intros He Hp. apply line_pattern_parseLine in Hp as [m Hm].
    rewrite rewrite_parseLine, He, Hm, listMatch_parseLine.
    now rewrite (Hout m Hm).
  - rewrite (rewrite_parseLine s lineText).
    destruct (enabled s) eqn:He.
    + destruct (parseLine lineText) as [m|] eqn:Hm.
      * rewrite rewrite_parseLine, He. now rewrite (Hout m eq_refl).
      * now rewrite rewrite_parseLine, He, Hm.
    + now rewrite rewrite_parseLine, He.
Qed.

Lemma rewrite_twice_witness :
  plainGlyphs DEFAULT_SETTINGS
  /\ listMatch (rewrite DEFAULT_SETTINGS (js "- - b")) = None
  /\ rewrite DEFAULT_SETTINGS (rewrite DEFAULT_SETTINGS (js "- - b"))
     = rewrite DEFAULT_SETTINGS (js "- - b").
Proof.
  assert (Hs : plainGlyphs DEFAULT_SETTINGS) by (repeat split).
  split; [exact Hs|].
  destruct (rewrite_twice DEFAULT_SETTINGS (js "- - b") Hs) as [H1 H2].
  split; [|exact H2].
  apply H1; [reflexivity|].
  exists [], Chr.MINUS, (js " "), (js "- b"). repeat split. discriminate.
Defined.

(** With a single space as the glyph of level 1 (a non-empty glyph), the
    item "- - b" is rewritten to "  - b", which is a list item of level 2:
    the second rewrite changes it again. *)
Lemma rewrite_twice_differs :
  level1 (mkSettings (js " ") [9702%N] [9642%N] [9643%N] [8259%N] true) <> []
  /\ rewrite (mkSettings (js " ") [9702%N] [9642%N] [9643%N] [8259%N] true)
       (js "- - b")
     = js "  - b"
  /\ rewrite (mkSettings (js " ") [9702%N] [9642%N] [9643%N] [8259%N] true)
       (rewrite (mkSettings (js " ") [9702%N] [9642%N] [9643%N] [8259%N] true)
          (js "- - b"))
     <> rewrite (mkSettings (js " ") [9702%N] [9642%N] [9643%N] [8259%N] true)
          (js "- - b").
Proof.
  split; [discriminate|]. split; [reflexivity|].
  vm_compute. discriminate.
Qed.

(** ** The settings tab (lines 147-200) *)

(** C8.  The handler of each of the five fields stores the default glyph
    of its level when the submitted value is the empty string and the
    submitted value itself otherwise; it leaves the other fields and the
    flag alone, and what it saves is the record it has just updated. *)
Theorem empty_glyph_replaced (f : LevelField) (value : jsstring) (p : Plugin) :
  (forall g : LevelField,
      field g (settings (onChange f value p))
      = if LevelField_eqb g f
        then match value with
             | [] => field f DEFAULT_SETTINGS
             | _ :: _ => value
             end
        else field g (settings p))
  /\ enabled (settings (onChange f value p)) = enabled (settings p)
  /\ data (onChange f value p) = Some (settings (onChange f value p)).
Proof.
  split; [|split].
  - intros g. destruct f, g, value; reflexivity.
  - destruct f; reflexivity.
  - destruct f; reflexivity.
Qed.

(** * Beyond the line rewriter *)

(** ** Loading and saving (lines 114-120) *)

Lemma settings_eta (s : CustomBulletsSettings) :
  mkSettings (level1 s) (level2 s) (level3 s) (level4 s) (level5 s) (enabled s)
  = s.
Proof. now destruct s. Qed.

Lemma loadSettings_storedOf (s : CustomBulletsSettings) :
  loadSettings (Some (storedOf s)) = s.
Proof.
  unfold loadSettings, Object_assign, storedOf. cbn. apply settings_eta.
Qed.

Lemma loadSettings_field (d : StoredData) (f : LevelField) :
  field f (loadSettings (Some d))
  = match storedGlyph f d with
    | Some v => v
    | None => field f DEFAULT_SETTINGS
    end.
Proof. destruct f; reflexivity. Qed.

(** X1.  What [saveSettings] writes, [loadSettings] reads back unchanged;
    with nothing in the store the settings are the defaults; and a key that
    the stored object lacks takes its default while the keys it has win. *)
Theorem loadSettings_roundtrip :
  (forall s : CustomBulletsSettings, loadSettings (Some (storedOf s)) = s)
  /\ (forall (found : option StoredData) (p : Plugin),
        loadSettings (loadData found (saveSettings p)) = settings p)
  /\ loadSettings None = DEFAULT_SETTINGS
  /\ (forall (d : StoredData) (f : LevelField),
        field f (loadSettings (Some d))
        = match storedGlyph f d with
          | Some v => v
          | None => field f DEFAULT_SETTINGS
          end)
  /\ (forall d : StoredData,
        enabled (loadSettings (Some d))
        = match stored_enabled d with
          | Some v => v
          | None => true
          end).
Proof.
  repeat split.
  - exact loadSettings_storedOf.
  - intros found p. unfold loadData, saveSettings. cbn [data settings].
    apply loadSettings_storedOf.
  - exact loadSettings_field.
Qed.



(** ** The handlers of a session (lines 45-50 and 141-200) *)

Lemma data_handle {E : Type} `{EditorAPI E} (ev : Event) (a : App E) :
  data (plugin (handle ev a)) = Some (settings (plugin (handle ev a))).
Proof.
  destruct ev as [|value|f value]; cbn; [reflexivity|reflexivity|].
  destruct f; reflexivity.
Qed.

Lemma session_snoc {E : Type} `{EditorAPI E} (evs : list Event) (ev : Event)
    (a : App E) :
  session (evs ++ [ev]) a = handle ev (session evs a).
Proof. unfold session. now rewrite fold_left_app. Qed.

(** X3.  Whatever the user does in a session, the settings in memory are
    the ones a restart would load: every handler saves the record it has
    changed, and before the first save the store still holds what the
    settings were loaded from. *)
Theorem session_survives_restart {E : Type} `{EditorAPI E}
    (found : option StoredData) (leaf : option (View E)) (evs : list Event) :
  loadSettings (loadData found (plugin (session evs (onload found leaf))))
  = settings (plugin (session evs (onload found leaf))).
Proof.
  destruct evs as [|ev evs] using rev_ind.
  - reflexivity.
  - rewrite session_snoc. unfold loadData. rewrite data_handle.
    apply loadSettings_storedOf.
Qed.

Lemma or_string_nonempty (value default : jsstring) :
  default <> [] -> or_string value default <> [].
Proof. intros Hd. destruct value; [exact Hd | discriminate]. Qed.

Lemma field_onChange_nonempty (f : LevelField) (value : jsstring) (p : Plugin) :
  field f (settings (onChange f value p)) <> [].
Proof. destruct f; cbn; apply or_string_nonempty; discriminate. Qed.

Lemma field_onChange_other (f g : LevelField) (value : jsstring) (p : Plugin) :
  g <> f -> field g (settings (onChange f value p)) = field g (settings p).
Proof. intros Hn. destruct f, g; try reflexivity; contradiction. Qed.

Lemma nonEmptyGlyphs_handle {E : Type} `{EditorAPI E} (ev : Event) (a : App E) :
  nonEmptyGlyphs (settings (plugin a)) ->
  nonEmptyGlyphs (settings (plugin (handle ev a))).
Proof.
  intros Hne g. destruct ev as [|value|f value].
  - specialize (Hne g). destruct g; exact Hne.
  - specialize (Hne g). destruct g; exact Hne.
  - cbn [handle onChange_text plugin].
    destruct (LevelField_eqb g f) eqn:Hgf.
    + assert (g = f) as -> by (destruct g, f; try reflexivity; discriminate Hgf).
      apply field_onChange_nonempty.
    + rewrite field_onChange_other; [apply Hne|].
      intros ->. destruct f; discriminate Hgf.
Qed.

(** X4.  No handler can empty a glyph: when the five glyphs are non-empty
    before a session they are non-empty after it, and a text field of the
    settings tab leaves its own glyph non-empty whatever was there and
    whatever is typed. *)
Theorem session_keeps_nonEmptyGlyphs {E : Type} `{EditorAPI E} :
  (forall (evs : list Event) (a : App E),
      nonEmptyGlyphs (settings (plugin a)) ->
      nonEmptyGlyphs (settings (plugin (session evs a))))
  /\ (forall (f : LevelField) (value : jsstring) (a : App E),
        field f (settings (plugin (onChange_text f value a))) <> []).
Proof.
  split.
  - intros evs. induction evs as [|ev evs IH] using rev_ind; intros a Hne.
    + exact Hne.
    + rewrite session_snoc. now apply nonEmptyGlyphs_handle, IH.
  - intros f value a. apply field_onChange_nonempty.
Qed.

Lemma session_keeps_nonEmptyGlyphs_witness :
  nonEmptyGlyphs
    (settings (plugin (session [TabText Level3 []; Command; TabText Level1 (js "+")]
                         (@onload PlainEditor None None)))).
Proof.
  apply (proj1 (@session_keeps_nonEmptyGlyphs PlainEditor _)).
  intros f. destruct f; discriminate.
Defined.

Lemma statusText_enabled (s t : CustomBulletsSettings) :
  statusText s = statusText t <-> enabled s = enabled t.
Proof.
  unfold statusText. split.
  - destruct (enabled s), (enabled t); try reflexivity; intros H; discriminate H.
  - now intros ->.
Qed.

Lemma rewrite_disabled (s : CustomBulletsSettings) (lineText : jsstring) :
  enabled s = false -> rewrite s lineText = lineText.
Proof. intros He. unfold rewrite, processLine. now rewrite He. Qed.

(** X5.  The command flips the flag and nothing else in the settings, and
    the status bar item shows the new flag.  Run once on an enabled plugin
    it makes the rewriter hand every line back; run twice it gives back the
    settings it started from, and with them the same rewriting. *)
Theorem toggleCommand_twice {E : Type} `{EditorAPI E} (a : App E) :
  enabled (settings (plugin (toggleCommand a)))
  = negb (enabled (settings (plugin a)))
  /\ (forall f : LevelField,
        field f (settings (plugin (toggleCommand a)))
        = field f (settings (plugin a)))
  /\ statusBarItem (toggleCommand a)
     = statusText (settings (plugin (toggleCommand a)))
  /\ settings (plugin (toggleCommand (toggleCommand a))) = settings (plugin a)
  /\ (forall lineText : jsstring,
        rewrite (settings (plugin (toggleCommand (toggleCommand a)))) lineText
        = rewrite (settings (plugin a)) lineText)
  /\ (forall lineText : jsstring,
        enabled (settings (plugin a)) = true ->
        rewrite (settings (plugin (toggleCommand a))) lineText = lineText).
Proof.
  assert (Htwice : settings (plugin (toggleCommand (toggleCommand a)))
                   = settings (plugin a)).
  { unfold toggleCommand, saveSettings, assign, setEnabled.
    cbn [plugin settings level1 level2 level3 level4 level5 enabled].
    rewrite negb_involutive. apply settings_eta. }
  split; [reflexivity|]. split; [intros f; now destruct f|].
  split; [reflexivity|]. split; [exact Htwice|]. split.
  - intros lineText. now rewrite Htwice.
  - intros lineText He. apply rewrite_disabled. cbn. now rewrite He.
Qed.

Lemma toggleCommand_twice_witness :
  rewrite
    (settings (plugin (toggleCommand
                         (@onload PlainEditor None None))))
    (js "- a")
  = js "- a".
Proof.
  apply (proj2 (proj2 (proj2 (proj2 (proj2
           (toggleCommand_twice (@onload PlainEditor None None))))))).
  reflexivity.
Defined.

Lemma enabled_onChange (f : LevelField) (value : jsstring) (p : Plugin) :
  enabled (settings (onChange f value p)) = enabled (settings p).
Proof. now destruct f. Qed.

(** X6.  As long as the flag is changed through the command only, the
    status bar item tells the truth: after loading, and after any sequence
    of commands and of glyph edits in the settings tab, its text is the one
    that belongs to the flag in the settings. *)
Theorem statusBarItem_follows_command {E : Type} `{EditorAPI E}
    (found : option StoredData) (leaf : option (View E)) (evs : list Event) :
  forallb (fun ev => negb (isTabToggle ev)) evs = true ->
  statusBarItem (session evs (onload found leaf))
  = statusText (settings (plugin (session evs (onload found leaf)))).
Proof.
  induction evs as [|ev evs IH] using rev_ind; intros Hevs.
  - reflexivity.
  - rewrite forallb_app in Hevs. apply andb_prop in Hevs as [Hevs Hev].
    rewrite session_snoc. specialize (IH Hevs).
    destruct ev as [|value|f value].
    + reflexivity.
    + discriminate Hev.
    + cbn [handle onChange_text statusBarItem plugin]. rewrite IH.
      apply statusText_enabled. symmetry. apply enabled_onChange.
Qed.

Lemma statusBarItem_follows_command_witness :
  statusBarItem
    (session [Command; TabText Level2 (js "o"); Command; Command]
       (@onload PlainEditor None None))
  = js "Custom Bullets: OFF".
Proof.
  refine (eq_trans
            (statusBarItem_follows_command None None
               [Command; TabText Level2 (js "o"); Command; Command] _) _);
    reflexivity.
Defined.

(** X7.  The toggle of the settings tab sets the flag to the value it is
    given, saves, and leaves the status bar item as it is: when the item
    showed the flag before and the value differs from the flag, the item
    shows the wrong state afterwards. *)
Theorem onChange_enabled_leaves_statusBarItem {E : Type} `{EditorAPI E}
    (value : bool) (a : App E) :
  enabled (settings (plugin (onChange_enabled value a))) = value
  /\ data (plugin (onChange_enabled value a))
     = Some (settings (plugin (onChange_enabled value a)))
  /\ statusBarItem (onChange_enabled value a) = statusBarItem a
  /\ (statusBarItem a = statusText (settings (plugin a)) ->
      value <> enabled (settings (plugin a)) ->
      statusBarItem (onChange_enabled value a)
      <> statusText (settings (plugin (onChange_enabled value a)))).
Proof.
  repeat split.
  intros Hbar Hv Heq. cbn [onChange_enabled statusBarItem] in Heq.
  rewrite Hbar in Heq. apply statusText_enabled in Heq. cbn in Heq.
  now apply Hv.
Qed.

Lemma onChange_enabled_leaves_statusBarItem_witness :
  statusBarItem (onChange_enabled false (@onload PlainEditor None None))
  = js "Custom Bullets: ON"
  /\ enabled (settings (plugin (onChange_enabled false
                                  (@onload PlainEditor None None))))
     = false
  /\ statusBarItem (onChange_enabled false (@onload PlainEditor None None))
     <> statusText (settings (plugin (onChange_enabled false
                                        (@onload PlainEditor None None)))).
Proof.
  split; [reflexivity|]. split; [reflexivity|].
  apply (proj2 (proj2 (proj2
           (onChange_enabled_leaves_statusBarItem false
              (@onload PlainEditor None None))))).
  - reflexivity.
  - discriminate.
Defined.

(** ** The editor refresh (lines 98-108) *)

Lemma PlainEditor_laws : EditorLaws PlainEditor.
Proof. split; reflexivity. Defined.

Lemma updateActiveMDView_editor {E : Type} `{EditorLaws E} (e : E) :
  exists e' : E,
    updateActiveMDView (Some (MarkdownView e)) = Some (MarkdownView e')
    /\ getValue e' = getValue e
    /\ getCursor e' = getCursor e.
Proof.
  eexists. split; [reflexivity|]. split.
  - now rewrite getValue_setCursor, getValue_setValue.
  - apply getCursor_setCursor.
Qed.

(** X8.  On an editor whose [setValue] and [setCursor] do what their names
    say, the refresh leaves the text and the cursor of the active markdown
    view as they were, wherever [setValue] by itself puts the cursor; with
    no active leaf, or with a view of another kind, it does nothing. *)
Theorem updateActiveMDView_keeps_editor {E : Type} `{EditorLaws E} :
  (forall e : E,
      exists e' : E,
        updateActiveMDView (Some (MarkdownView e)) = Some (MarkdownView e')
        /\ getValue e' = getValue e
        /\ getCursor e' = getCursor e)
  /\ updateActiveMDView (Some (@OtherView E)) = Some OtherView
  /\ updateActiveMDView (@None (View E)) = None.
Proof.
  split; [exact updateActiveMDView_editor|]. split; reflexivity.
Qed.

Lemma updateActiveMDView_keeps_editor_witness :
  (exists e' : PlainEditor,
      updateActiveMDView
        (Some (MarkdownView (mkPlainEditor (js "- a") (mkPosition 0 3))))
      = Some (MarkdownView e')
      /\ getValue e' = js "- a"
      /\ getCursor e' = mkPosition 0 3)
  /\ getCursor (setValue (js "- a") (mkPlainEditor (js "- a") (mkPosition 0 3)))
     = mkPosition 0 0.
Proof.
  split; [|reflexivity].
  apply (proj1 (@updateActiveMDView_keeps_editor PlainEditor _ PlainEditor_laws)
           (mkPlainEditor (js "- a") (mkPosition 0 3))).
Defined.

Lemma handle_activeLeaf {E : Type} `{EditorAPI E} (ev : Event) (a : App E) :
  activeLeaf (handle ev a) = updateActiveMDView (activeLeaf a).
Proof. now destruct ev. Qed.

(** X9.  The plugin never edits the document: after any session the
    editor of the active markdown view has the text and the cursor it had
    before, on an editor whose [setValue] and [setCursor] do what their
    names say. *)
Theorem session_keeps_editor {E : Type} `{EditorLaws E} (evs : list Event)
    (a : App E) (e : E) :
  activeLeaf a = Some (MarkdownView e) ->
  exists e' : E,
    activeLeaf (session evs a) = Some (MarkdownView e')
    /\ getValue e' = getValue e
    /\ getCursor e' = getCursor e.
Proof.
  intros Ha. induction evs as [|ev evs IH] using rev_ind.
  - now exists e.
  - destruct IH as (e1 & H1 & Hv & Hc).
    rewrite session_snoc, handle_activeLeaf, H1.
    destruct (updateActiveMDView_editor e1) as (e2 & H2 & Hv2 & Hc2).
    exists e2. split; [exact H2|]. split; congruence.
Qed.

Lemma session_keeps_editor_witness :
  exists e' : PlainEditor,
    activeLeaf
      (session [Command; TabText Level1 (js "+"); TabToggle true]
         (onload None
            (Some (MarkdownView (mkPlainEditor (js "- a") (mkPosition 0 3))))))
    = Some (MarkdownView e')
    /\ getValue e' = js "- a"
    /\ getCursor e' = mkPosition 0 3.
Proof.
  apply (@session_keeps_editor PlainEditor _ PlainEditor_laws
           [Command; TabText Level1 (js "+"); TabToggle true]
           (onload None
              (Some (MarkdownView (mkPlainEditor (js "- a") (mkPosition 0 3)))))
           (mkPlainEditor (js "- a") (mkPosition 0 3))).
  reflexivity.
Defined.

(** ** More on the rewritten line (lines 59-94) *)

Lemma whitespace_of_marker (b : char) :
  isMarker b = true -> isWhiteSpace b = false.
Proof.
  intros Hb. destruct (isWhiteSpace b) eqn:Hw; [|reflexivity].
  apply whitespace_not_marker in Hw. congruence.
Qed.

Lemma prefixOf_id (p : char -> bool) (s : jsstring) :
  forallb p s = true -> prefixOf p s = s.
Proof.
  induction s as [|c s IH]; cbn [forallb prefixOf]; [reflexivity|].
  intros Hs. apply andb_prop in Hs as [Hc Hs]. now rewrite Hc, IH.
Qed.

Lemma afterPrefix_all (p : char -> bool) (s : jsstring) :
  forallb p s = true -> afterPrefix p s = [].
Proof.
  induction s as [|c s IH]; cbn [forallb afterPrefix]; [reflexivity|].
  intros Hs. apply andb_prop in Hs as [Hc Hs]. now rewrite Hc, IH.
Qed.

(** The parse of a line whose first character after the indentation is a
    marker depends on the marker through its place only. *)
Lemma parseLine_after_marker (indent : jsstring) (b : char) (t : jsstring) :
  forallb isWhiteSpace indent = true ->
  isMarker b = true ->
  parseLine (indent ++ b :: t)
  = match prefixOf isWhiteSpace t with
    | [] => None
    | sep =>
        Some (mkLineMatch indent b sep
                (prefixOf isDot (afterPrefix isWhiteSpace t)))
    end.
Proof.
  intros Hi Hb. unfold parseLine.
  rewrite afterPrefix_app, prefixOf_app by exact Hi.
  cbn [afterPrefix prefixOf].
  now rewrite (whitespace_of_marker b Hb), Hb, app_nil_r.
Qed.

(** X10.  Which of the three markers a list item is written with makes no
    difference to what [processLine] returns. *)
Theorem marker_makes_no_difference (s : CustomBulletsSettings) (A : Type)
    (line : A) (indent : jsstring) (b b' : char) (t : jsstring) :
  forallb isWhiteSpace indent = true ->
  isMarker b = true ->
  isMarker b' = true ->
  processLine s line (indent ++ b :: t) = processLine s line (indent ++ b' :: t).
Proof.
  intros Hi Hb Hb'. rewrite !processLine_parseLine.
  rewrite (parseLine_after_marker indent b t Hi Hb),
          (parseLine_after_marker indent b' t Hi Hb').
  now destruct (prefixOf isWhiteSpace t).
Qed.

Lemma marker_makes_no_difference_witness :
  processLine DEFAULT_SETTINGS tt (js "  " ++ Chr.STAR :: js " task")
  = processLine DEFAULT_SETTINGS tt (js "  " ++ Chr.PLUS :: js " task").
Proof.
  apply (marker_makes_no_difference DEFAULT_SETTINGS unit tt (js "  ")
           Chr.STAR Chr.PLUS (js " task")); reflexivity.
Defined.

(** X11.  The parts of a list item are the groups that are captured: for
    an indentation of whitespace, a marker, a non-empty separator of
    whitespace and a content that neither begins with whitespace nor holds
    a line terminator, the match array is the whole line followed by these
    four parts, and the enabled rewriter puts the glyph of the level of the
    indentation in the place of the marker. *)
Theorem listMatch_of_parts (indent : jsstring) (b : char) (sep body : jsstring) :
  forallb isWhiteSpace indent = true ->
  isMarker b = true ->
  sep <> [] ->
  forallb isWhiteSpace sep = true ->
  (forall c t, body = c :: t -> isWhiteSpace c = false) ->
  forallb isDot body = true ->
  listMatch (indent ++ b :: sep ++ body)
  = Some [Some (indent ++ b :: sep ++ body); Some indent; Some [b]; Some sep;
          Some body]
  /\ (forall s : CustomBulletsSettings,
        enabled s = true ->
        rewrite s (indent ++ b :: sep ++ body)
        = indent ++ customBullet s (indentLevel (Some indent)) ++ sep ++ body).
Proof.
  intros Hi Hb Hne Hs Hbody Hdot.
  assert (Hp : parseLine (indent ++ b :: sep ++ body)
               = Some (mkLineMatch indent b sep body)).
  { rewrite (parseLine_of_shape indent b sep body Hi Hb Hne Hs).
    assert (H1 : prefixOf isWhiteSpace body = []).
    { destruct body as [|c t]; [reflexivity|].
      cbn [prefixOf]. now rewrite (Hbody c t eq_refl). }
    assert (H2 : afterPrefix isWhiteSpace body = body).
    { destruct body as [|c t]; [reflexivity|].
      cbn [afterPrefix]. now rewrite (Hbody c t eq_refl). }
    now rewrite H1, H2, app_nil_r, (prefixOf_id isDot body Hdot). }
  split.
  - now rewrite listMatch_parseLine, Hp.
  - intros s He. now rewrite rewrite_parseLine, He, Hp.
Qed.

Lemma listMatch_of_parts_witness :
  listMatch (Chr.TAB :: Chr.MINUS :: js "  [ ] task")
  = Some [Some (Chr.TAB :: Chr.MINUS :: js "  [ ] task"); Some [Chr.TAB];
          Some [Chr.MINUS]; Some (js "  "); Some (js "[ ] task")]
  /\ (forall s : CustomBulletsSettings,
        enabled s = true ->
        rewrite s (Chr.TAB :: Chr.MINUS :: js "  [ ] task")
        = [Chr.TAB] ++ customBullet s (indentLevel (Some [Chr.TAB]))
            ++ js "  " ++ js "[ ] task").
Proof.
  apply (listMatch_of_parts [Chr.TAB] Chr.MINUS (js "  ") (js "[ ] task")).
  - reflexivity.
  - reflexivity.
  - discriminate.
  - reflexivity.
  - intros c t H. injection H as <- _. reflexivity.
  - reflexivity.
Defined.

Lemma lineLevel_parseLine (lineText : jsstring) :
  lineLevel lineText
  = match parseLine lineText with
    | Some m => Some (indentLevel (Some (indentPrefix m)))
    | None => None
    end.
Proof.
  unfold lineLevel. rewrite listMatch_parseLine.
  now destruct (parseLine lineText).
Qed.

Lemma customBullet_field (s : CustomBulletsSettings) (level : Z) :
  customBullet s level = field (armField (switchArm level)) s.
Proof. unfold customBullet. now destruct (switchArm level). Qed.

Lemma parseLine_singleLine (lineText : jsstring) (m : LineMatch) :
  parseLine lineText = Some m ->
  singleLine lineText ->
  lineText = indentPrefix m ++ bulletChar m :: separator m ++ content m.
Proof.
  intros Hm Hs.
  destruct (parseLine_parts _ _ Hm) as (tail & Heq & _ & _ & _ & _ & _ & _ & Ht).
  assert (Hit : tail = []).
  { apply (singleLine_no_tail
             (indentPrefix m ++ bulletChar m :: separator m ++ content m));
      [|exact Ht].
    rewrite <- app_assoc, <- app_comm_cons, <- app_assoc. now rewrite <- Heq. }
  rewrite Hit, app_nil_r in Heq. exact Heq.
Qed.

(** X12.  On a text of one line the enabled rewriter changes the length by
    the length of the glyph less one, the marker it replaces.  So a table
    whose glyphs are one code unit each, as the default ones are, keeps the
    length, and with it every column, of every line. *)
Theorem rewrite_length :
  (forall (s : CustomBulletsSettings) (lineText : jsstring) (level : Z),
      enabled s = true ->
      singleLine lineText ->
      lineLevel lineText = Some level ->
      (length (rewrite s lineText) + 1
       = length lineText + length (customBullet s level))%nat)
  /\ (forall (s : CustomBulletsSettings) (lineText : jsstring),
        (forall f : LevelField, length (field f s) = 1%nat) ->
        singleLine lineText ->
        length (rewrite s lineText) = length lineText).
Proof.
  assert (Hlen : forall s lineText m,
            parseLine lineText = Some m -> singleLine lineText ->
            (length (indentPrefix m
                       ++ customBullet s (indentLevel (Some (indentPrefix m)))
                       ++ separator m ++ content m) + 1
             = length lineText
               + length (customBullet s (indentLevel (Some (indentPrefix m)))))%nat).
  { intros s lineText m Hm Hs.
    rewrite (parseLine_singleLine lineText m Hm Hs) at 1.
    rewrite !length_app. cbn [length]. rewrite !length_app. lia. }
  split.
  - intros s lineText level He Hs Hl.
    rewrite lineLevel_parseLine in Hl. rewrite rewrite_parseLine, He.
    destruct (parseLine lineText) as [m|] eqn:Hm; [|discriminate Hl].
    injection Hl as <-. now apply Hlen.
  - intros s lineText Hone Hs. rewrite rewrite_parseLine.
    destruct (enabled s); [|reflexivity].
    destruct (parseLine lineText) as [m|] eqn:Hm; [|reflexivity].
    pose proof (Hlen s lineText m Hm Hs) as H.
    rewrite (customBullet_field s) in H at 2. rewrite Hone in H. lia.
Qed.

Lemma rewrite_length_witness :
  (length (rewrite (mkSettings (js "=>") (js "->") (js "~>") (js ">") (js ".") true)
             (js "  - a")) + 1
   = length (js "  - a")
     + length (customBullet
                 (mkSettings (js "=>") (js "->") (js "~>") (js ">") (js ".") true)
                 2))%nat
  /\ length (rewrite DEFAULT_SETTINGS (js "    * deep")) = length (js "    * deep").
Proof.
  split.
  - apply (proj1 rewrite_length); reflexivity.
  - apply (proj2 rewrite_length).
    + intros f. destruct f; reflexivity.
    + reflexivity.
Defined.

(** ** More on the nesting level (lines 69-79) *)

Lemma countIf_app (p : char -> bool) (s t : jsstring) :
  countIf p (s ++ t) = countIf p s + countIf p t.
Proof.
  unfold countIf. rewrite List.filter_app, length_app. lia.
Qed.

Lemma countIf_cons (p : char -> bool) (c : char) (s : jsstring) :
  countIf p (c :: s) = (if p c then 1 else 0) + countIf p s.
Proof.
  unfold countIf. cbn [List.filter]. destruct (p c); cbn [length]; lia.
Qed.

Lemma countIf_tabs_and_others (s : jsstring) :
  countIf isTab s + countIf notTab s = jslength s.
Proof.
  induction s as [|c s IH]; [reflexivity|].
  rewrite !countIf_cons. unfold jslength in *. cbn [length].
  unfold notTab at 1. destruct (isTab c); cbn [negb]; lia.
Qed.

Lemma isTab_other (c : char) : c <> Chr.TAB -> isTab c = false.
Proof. intros Hc. apply N.eqb_neq. congruence. Qed.

Lemma notTab_other (c : char) : c <> Chr.TAB -> notTab c = true.
Proof. intros Hc. unfold notTab. now rewrite (isTab_other c Hc). Qed.

Lemma half_step (n : Z) : (n + 2) / 2 = n / 2 + 1.
Proof.
  replace (n + 2) with (n + 1 * 2) by lia.
  now rewrite Z.div_add by lia.
Qed.

(** X13.  A tab put anywhere into an indentation raises the level by
    exactly one, and so do two characters other than tabs, whether they
    stand together or apart.  Lengthening an indentation never lowers the
    level, and the level lies between 1 and 1 plus the length of the
    indentation. *)
Theorem indentLevel_steps :
  (forall i1 i2 : jsstring,
      indentLevel (Some (i1 ++ Chr.TAB :: i2)) = indentLevel (Some (i1 ++ i2)) + 1)
  /\ (forall (i1 i2 i3 : jsstring) (c d : char),
        c <> Chr.TAB -> d <> Chr.TAB ->
        indentLevel (Some (i1 ++ c :: i2 ++ d :: i3))
        = indentLevel (Some (i1 ++ i2 ++ i3)) + 1)
  /\ (forall indent more : jsstring,
        indentLevel (Some indent) <= indentLevel (Some (indent ++ more)))
  /\ (forall indent : jsstring,
        1 <= indentLevel (Some indent) <= 1 + jslength indent).
Proof.
  split; [|split; [|split]].
  - intros i1 i2. rewrite !indentLevel_formula, !countIf_app, !countIf_cons.
    change (isTab Chr.TAB) with true. change (notTab Chr.TAB) with false.
    cbv iota. rewrite Z.add_0_l. lia.
  - intros i1 i2 i3 c d Hc Hd.
    rewrite !indentLevel_formula, !countIf_app, !countIf_cons, !countIf_app,
            !countIf_cons.
    rewrite (isTab_other c Hc), (isTab_other d Hd),
            (notTab_other c Hc), (notTab_other d Hd).
    cbv iota.
    replace (countIf notTab i1 + (1 + (countIf notTab i2 + (1 + countIf notTab i3))))
      with (countIf notTab i1 + (countIf notTab i2 + countIf notTab i3) + 2) by lia.
    rewrite half_step. lia.
  - intros indent more. rewrite !indentLevel_formula, !countIf_app.
    pose proof (countIf_nonneg isTab more).
    pose proof (countIf_nonneg notTab more).
    assert (countIf notTab indent / 2
            <= (countIf notTab indent + countIf notTab more) / 2)
      by (apply Z.div_le_mono; lia).
    lia.
  - intros indent. rewrite indentLevel_formula.
    pose proof (countIf_tabs_and_others indent).
    pose proof (countIf_nonneg isTab indent).
    pose proof (countIf_nonneg notTab indent).
    pose proof (Z.div_pos (countIf notTab indent) 2).
    assert (countIf notTab indent / 2 <= countIf notTab indent)
      by (apply Z.div_le_upper_bound; lia).
    lia.
Qed.

Lemma indentLevel_steps_witness :
  indentLevel (Some (js " " ++ Chr.SPACE :: [Chr.TAB] ++ Chr.NBSP :: js " "))
  = indentLevel (Some (js " " ++ [Chr.TAB] ++ js " ")) + 1.
Proof.
  apply (proj1 (proj2 indentLevel_steps)); discriminate.
Defined.

(** ** A glyph edited in the settings tab *)

Lemma field_onChange_same (f : LevelField) (value : jsstring) (p : Plugin) :
  value <> [] -> field f (settings (onChange f value p)) = value.
Proof.
  intros Hv. destruct value as [|c v]; [contradiction|]. now destruct f.
Qed.

(** X14.  Editing the glyph of one field of the settings tab changes the
    rewriting of the lines of that level and of no other line: a line that
    is no list item, or whose level selects another field, is rewritten as
    before, and an item of that level shows the new glyph between its
    indentation and its separator. *)
Theorem glyph_edit_is_local (f : LevelField) (value : jsstring) (p : Plugin)
    (lineText : jsstring) :
  (lineLevel lineText = None ->
   rewrite (settings (onChange f value p)) lineText
   = rewrite (settings p) lineText)
  /\ (forall level : Z,
        lineLevel lineText = Some level ->
        armField (switchArm level) <> f ->
        rewrite (settings (onChange f value p)) lineText
        = rewrite (settings p) lineText)
  /\ (forall level : Z,
        lineLevel lineText = Some level ->
        armField (switchArm level) = f ->
        enabled (settings p) = true ->
        value <> [] ->
        exists sep body : jsstring,
          sep <> []
          /\ forallb isWhiteSpace sep = true
          /\ rewrite (settings (onChange f value p)) lineText
             = prefixOf isWhiteSpace lineText ++ value ++ sep ++ body).
Proof.
  rewrite lineLevel_parseLine, !rewrite_parseLine, enabled_onChange.
  split; [|split].
  - destruct (parseLine lineText); [discriminate|reflexivity].
  - intros level Hl Hf.
    destruct (parseLine lineText) as [m|]; [|discriminate Hl].
    assert (Hlv : indentLevel (Some (indentPrefix m)) = level) by congruence.
    clear Hl. subst level. destruct (enabled (settings p)); [|reflexivity].
    now rewrite !customBullet_field, field_onChange_other.
  - intros level Hl Hf He Hv. rewrite He.
    destruct (parseLine lineText) as [m|] eqn:Hm; [|discriminate Hl].
    assert (Hlv : indentLevel (Some (indentPrefix m)) = level) by congruence.
    clear Hl. subst level.
    destruct (parseLine_parts _ _ Hm) as (tail & _ & Hi & _ & _ & Hne & Hs & _).
    exists (separator m), (content m).
    rewrite customBullet_field, Hf, (field_onChange_same f value p Hv), Hi.
    now repeat split.
Qed.

Lemma glyph_edit_is_local_witness :
  rewrite (settings (onChange Level2 (js ">") (mkPlugin DEFAULT_SETTINGS None)))
    (js "- top")
  = rewrite DEFAULT_SETTINGS (js "- top")
  /\ exists sep body : jsstring,
       sep <> []
       /\ forallb isWhiteSpace sep = true
       /\ rewrite (settings (onChange Level2 (js ">")
                               (mkPlugin DEFAULT_SETTINGS None)))
            (js "  - nested")
          = prefixOf isWhiteSpace (js "  - nested") ++ js ">" ++ sep ++ body.
Proof.
  split.
  - apply (proj1 (proj2 (glyph_edit_is_local Level2 (js ">")
                           (mkPlugin DEFAULT_SETTINGS None) (js "- top"))) 1).
    + reflexivity.
    + discriminate.
  - apply (proj2 (proj2 (glyph_edit_is_local Level2 (js ">")
                           (mkPlugin DEFAULT_SETTINGS None) (js "  - nested"))) 2).
    + reflexivity.
    + reflexivity.
    + reflexivity.
    + discriminate.
Defined.

(** ** Lines that are no list items *)

Lemma parseLine_blank (lineText : jsstring) :
  forallb isWhiteSpace lineText = true -> parseLine lineText = None.
Proof.
  intros H. unfold parseLine. now rewrite (afterPrefix_all _ _ H).
Qed.

Lemma parseLine_no_marker (indent : jsstring) (c : char) (t : jsstring) :
  forallb isWhiteSpace indent = true ->
  isWhiteSpace c = false ->
  isMarker c = false ->
  parseLine (indent ++ c :: t) = None.
Proof.
  intros Hi Hw Hc. unfold parseLine. rewrite afterPrefix_app by exact Hi.
  cbn [afterPrefix]. now rewrite Hw, Hc.
Qed.

Lemma parseLine_marker_alone (indent : jsstring) (b : char) :
  forallb isWhiteSpace indent = true ->
  isMarker b = true ->
  parseLine (indent ++ [b]) = None.
Proof.
  intros Hi Hb. now rewrite (parseLine_after_marker indent b [] Hi Hb).
Qed.

Lemma parseLine_marker_glued (indent : jsstring) (b c : char) (t : jsstring) :
  forallb isWhiteSpace indent = true ->
  isMarker b = true ->
  isWhiteSpace c = false ->
  parseLine (indent ++ b :: c :: t) = None.
Proof.
  intros Hi Hb Hc. rewrite (parseLine_after_marker indent b (c :: t) Hi Hb).
  cbn [prefixOf]. now rewrite Hc.
Qed.

Lemma processLine_not_parsed {A : Type} (s : CustomBulletsSettings) (line : A)
    (lineText : jsstring) :
  parseLine lineText = None -> processLine s line lineText = ReturnLine line.
Proof.
  intros Hp. rewrite processLine_parseLine, Hp. now destruct (enabled s).
Qed.

(** X15.  Four shapes of lines that [processLine] hands back, whatever
    the settings: a line of whitespace only; a line whose first character
    after the indentation is not a marker (a marker further on does not
    count); a marker that ends the line; and a marker with something other
    than whitespace right after it, as in a rule, in bold text or in a
    negative number. *)
Theorem lines_that_are_no_items (s : CustomBulletsSettings) (A : Type)
    (line : A) :
  (forall lineText : jsstring,
      forallb isWhiteSpace lineText = true ->
      processLine s line lineText = ReturnLine line)
  /\ (forall (indent : jsstring) (c : char) (t : jsstring),
        forallb isWhiteSpace indent = true ->
        isWhiteSpace c = false ->
        isMarker c = false ->
        processLine s line (indent ++ c :: t) = ReturnLine line)
  /\ (forall (indent : jsstring) (b : char),
        forallb isWhiteSpace indent = true ->
        isMarker b = true ->
        processLine s line (indent ++ [b]) = ReturnLine line)
  /\ (forall (indent : jsstring) (b c : char) (t : jsstring),
        forallb isWhiteSpace indent = true ->
        isMarker b = true ->
        isWhiteSpace c = false ->
        processLine s line (indent ++ b :: c :: t) = ReturnLine line).
Proof.
  split; [|split; [|split]].
  - intros lineText H. now apply processLine_not_parsed, parseLine_blank.
  - intros indent c t Hi Hw Hc.
    now apply processLine_not_parsed, parseLine_no_marker.
  - intros indent b Hi Hb.
    now apply processLine_not_parsed, parseLine_marker_alone.
  - intros indent b c t Hi Hb Hc.
    now apply processLine_not_parsed, parseLine_marker_glued.
Qed.

Lemma lines_that_are_no_items_witness :
  processLine DEFAULT_SETTINGS tt (js "   ") = ReturnLine tt
  /\ processLine DEFAULT_SETTINGS tt (js " " ++ js "a - b") = ReturnLine tt
  /\ processLine DEFAULT_SETTINGS tt (js "  " ++ js "-") = ReturnLine tt
  /\ processLine DEFAULT_SETTINGS tt (js "" ++ js "**bold** text") = ReturnLine tt.
Proof.
  destruct (lines_that_are_no_items DEFAULT_SETTINGS unit tt)
    as (H1 & H2 & H3 & H4).
  split; [|split; [|split]].
  - apply H1. reflexivity.
  - apply (H2 (js " ") 97%N (js " - b")); reflexivity.
  - apply (H3 (js "  ") Chr.MINUS); reflexivity.
  - apply (H4 [] Chr.STAR Chr.STAR (js "bold** text")); reflexivity.
Defined.

(** ** The captured groups *)

Lemma prefixOf_head (p : char -> bool) (s : jsstring) (c : char) (t : jsstring) :
  prefixOf p s = c :: t -> exists t', s = c :: t'.
Proof.
  destruct s as [|d s]; cbn [prefixOf]; [discriminate|].
  destruct (p d); [|discriminate].
  intros H. injection H as -> _. now exists s.
Qed.

(** X16.  In every match the separator has taken all the whitespace that
    follows the marker and the content stops before the first line
    terminator: the indentation and the separator are whitespace, the
    separator is not empty, and the content neither begins with whitespace
    nor holds a line terminator. *)
Theorem captured_groups_shape (lineText : jsstring)
    (a : list (option jsstring)) :
  listMatch lineText = Some a ->
  exists (indent : jsstring) (b : char) (sep body : jsstring),
    a = [Some (indent ++ b :: sep ++ body); Some indent; Some [b]; Some sep;
         Some body]
    /\ forallb isWhiteSpace indent = true
    /\ isMarker b = true
    /\ sep <> []
    /\ forallb isWhiteSpace sep = true
    /\ (forall c t, body = c :: t -> isWhiteSpace c = false)
    /\ forallb isDot body = true.
Proof.
  intros Ha. destruct (listMatch_Some _ _ Ha) as (m & Hm & ->).
  destruct (parseLine_parts _ _ Hm) as (tail & _ & _ & Hi & Hb & Hne & Hs & Hd & _).
  exists (indentPrefix m), (bulletChar m), (separator m), (content m).
  repeat split; try assumption.
  intros c t Hc. revert Hm Hc. unfold parseLine.
  destruct (afterPrefix isWhiteSpace lineText) as [|b s2]; [discriminate|].
  destruct (isMarker b); [|discriminate].
  destruct (prefixOf isWhiteSpace s2); [discriminate|].
  intros Hm. injection Hm as <-. cbn [content]. intros Hc.
  destruct (prefixOf_head _ _ _ _ Hc) as [t' Ht'].
  exact (afterPrefix_head _ _ _ _ Ht').
Qed.

Lemma captured_groups_shape_witness :
  exists (indent : jsstring) (b : char) (sep body : jsstring),
    [Some (js "+ " ++ Chr.TAB :: js " x y"); Some []; Some (js "+");
     Some (js " " ++ Chr.TAB :: js " "); Some (js "x y")]
    = [Some (indent ++ b :: sep ++ body); Some indent; Some [b]; Some sep;
       Some body]
    /\ forallb isWhiteSpace indent = true
    /\ isMarker b = true
    /\ sep <> []
    /\ forallb isWhiteSpace sep = true
    /\ (forall c t, body = c :: t -> isWhiteSpace c = false)
    /\ forallb isDot body = true.
Proof.
  apply (captured_groups_shape (js "+ " ++ Chr.TAB :: js " x y")).
  vm_compute; reflexivity.
Defined.

(** ** Several edits in the settings tab *)

(** X17.  Edits of two different fields can be made in either order with
    the same plugin as the result, and of two edits of one field the later
    one decides. *)
Theorem onChange_compose (f g : LevelField) (v w : jsstring) (p : Plugin) :
  (f <> g -> onChange f v (onChange g w p) = onChange g w (onChange f v p))
  /\ onChange f v (onChange f w p) = onChange f v p.
Proof.
  split.
  - intros Hfg.
    destruct f, g; try contradiction; reflexivity.
  - destruct f; reflexivity.
Qed.

Lemma onChange_compose_witness :
  onChange Level1 (js ">") (onChange Level4 [] (mkPlugin DEFAULT_SETTINGS None))
  = onChange Level4 [] (onChange Level1 (js ">") (mkPlugin DEFAULT_SETTINGS None)).
Proof.
  apply (proj1 (onChange_compose Level1 Level4 (js ">") []
                  (mkPlugin DEFAULT_SETTINGS None))).
  discriminate.
Defined.
